(** * WikiGraph embeddings service

    A shallow embedding of [src/python/main.py]: the pydantic request
    contracts, the handlers and the library routines they call.

    The numbers of the service are float32; here they are real numbers
    ([R]), without rounding, overflow or NaN.  What is proved is therefore
    about the structure of the answers (which handler runs, what is echoed,
    lengths, order, which entries are compared) and not about the digits of
    a score: no theorem below asserts that a score equals a particular real
    number other than the 0 of a zero row.

    The pretrained model is a value of [SentenceTransformer]: a function
    from one text to its embedding (or an exception), applied to each text
    of a batch.  [sklearn]'s cosine similarity is written out the way the
    library computes it (each row divided by its norm, a norm below ten
    machine epsilons replaced by one, then the products of rows).
    [np.argsort] is a parameter of the ranking handler, described by its
    contract; its default kind is not stable, so nothing is assumed about
    the order it gives to equal values.  Two functions that meet the
    contract serve as instances: one lists equal values in index order, the
    other in reverse index order. *)

From Stdlib Require Import String Ascii List Arith ZArith Bool Lia.
From Stdlib Require Import Reals Lra Permutation Sorted.
Import ListNotations.
Open Scope string_scope.
Open Scope list_scope.

Set Implicit Arguments.

(** ** Python values and exceptions *)

(** [List[float]]: one embedding, or one row of a two-dimensional array.
    The entries are real numbers standing for float32 values. *)
Definition Vector : Type := list R.

(** A call returns a value or raises an exception carrying its message. *)
Inductive result (A : Type) : Type :=
| Return (a : A)
| Raise (msg : string).
Arguments Raise {A} msg.

Definition bind {A B : Type} (c : result A) (k : A -> result B) : result B :=
  match c with
  | Return a => k a
  | Raise msg => Raise msg
  end.

Declare Scope py_scope.
Delimit Scope py_scope with py.
Notation "x <- c ;; k" := (bind c (fun x => k))
  (at level 61, c at next level, right associativity) : py_scope.
Notation "c ;;; k" := (bind c (fun _ => k))
  (at level 61, right associativity) : py_scope.
Local Open Scope py_scope.

(** A list comprehension (or a batched call) whose body may raise: the first
    exception, in list order, ends it. *)
Fixpoint mapM {A B : Type} (f : A -> result B) (l : list A) : result (list B) :=
  match l with
  | [] => Return []
  | a :: l' => b <- f a ;; bs <- mapM f l' ;; Return (b :: bs)
  end.

(** [l[i]] for a non-negative [i]. *)
Definition getitem {A : Type} (l : list A) (i : nat) : result A :=
  match nth_error l i with
  | Some a => Return a
  | None => Raise "list index out of range"
  end.

(** [l[:k]]: [None] keeps the whole list, an integer keeps its first [k]
    elements (the validated [top_k] is at least 1, so the negative case of
    Python's slices does not arise; it is written out all the same). *)
Definition slice_to {A : Type} (k : option Z) (l : list A) : list A :=
  match k with
  | None => l
  | Some z =>
      if (0 <=? z)%Z then firstn (Z.to_nat z) l
      else firstn (length l - Z.to_nat (- z)) l
  end.

(** What the client receives: the body of a 200 response, a validation error
    raised by the framework before the handler runs, or the handler's
    [HTTPException(status_code=500, detail=str(e))]. *)
Inductive HTTP (A : Type) : Type :=
| HTTP200 (body : A)
| HTTP422
| HTTP500 (detail : string).
Arguments HTTP422 {A}.
Arguments HTTP500 {A} detail.

(** [try: return ... except Exception as e: raise HTTPException(500, str(e))] *)
Definition try_except {A : Type} (c : result A) : HTTP A :=
  match c with
  | Return a => HTTP200 a
  | Raise msg => HTTP500 msg
  end.

(** ** The model handle *)

Record SentenceTransformer : Type := {
  forward : string -> result Vector;
  get_sentence_embedding_dimension : nat
}.

(** [model.encode(text)] on one string. *)
Definition encode (model : SentenceTransformer) (text : string) : result Vector :=
  forward model text.

(** [model.encode(texts)] on a list: one row per text, in the order of the
    texts. *)
Definition encode_batch (model : SentenceTransformer) (texts : list string)
  : result (list Vector) :=
  mapM (forward model) texts.

(** Every embedding has the length the model reports. *)
Definition fixed_dimension (model : SentenceTransformer) : Prop :=
  forall text v, forward model text = Return v ->
                 length v = get_sentence_embedding_dimension model.

(** ** sklearn.metrics.pairwise.cosine_similarity *)

Module Sklearn.

Local Open Scope R_scope.

Definition dot (x y : Vector) : R :=
  fold_right Rplus 0 (map (fun p => fst p * snd p) (combine x y)).

(** [row_norms]: the Euclidean norm of a row. *)
Definition row_norm (x : Vector) : R := sqrt (dot x x).

(** [np.finfo(np.float32).eps], the machine epsilon of the embeddings'
    dtype: [2 ** -23]. *)
Definition eps : R := / 8388608.

(** [_handle_zeros_in_scale]: [scale[scale < 10 * eps] = 1.0].  A norm below
    ten machine epsilons, a zero norm in particular, is replaced by one, so
    that the row is left as it is. *)
Definition handle_zeros_in_scale (s : R) : R :=
  if Rlt_dec s (10 * eps) then 1 else s.

Definition normalize_row (x : Vector) : Vector :=
  map (fun xi => xi / handle_zeros_in_scale (row_norm x)) x.

Definition normalize (X : list Vector) : list Vector := map normalize_row X.

(** [check_pairwise_arrays]: both arguments are arrays of at least one row
    and one column, with the same number of columns. *)
Definition same_width (n : nat) (X : list Vector) : bool :=
  forallb (fun x => length x =? n)%nat X.

Definition check_pairwise_arrays (X Y : list Vector) : result unit :=
  match X, Y with
  | [], _ | _, [] => Raise "Found array with 0 sample(s)"
  | x :: _, _ =>
      if (length x =? 0)%nat then Raise "Found array with 0 feature(s)"
      else if same_width (length x) X && same_width (length x) Y
           then Return tt
           else Raise "Incompatible dimension for X and Y matrices"
  end.

(** The kernel matrix: entry [i][j] is the product of normalised row [i] of
    [X] with normalised row [j] of [Y]. *)
Definition cosine_similarity (X Y : list Vector) : result (list (list R)) :=
  (check_pairwise_arrays X Y ;;;
   Return (map (fun x => map (dot x) (normalize Y)) (normalize X)))%py.

End Sklearn.

(** ** numpy.argsort *)

Module Numpy.

Section Insertion.

Variable A : Type.
(** The comparison of two values, and the value read at an index. *)
Variable less : A -> A -> bool.
Variable d : A.
Variable v : list A.

Definition at_ (i : nat) : A := nth i v d.

(** One step of an insertion sort of the indices.  The sorted prefix is
    held from its right end ([racc] lists it backwards); index [vi] moves
    left past every index whose value is strictly greater. *)
Fixpoint insert_left (vi : nat) (racc : list nat) : list nat :=
  match racc with
  | [] => [vi]
  | k :: rest =>
      if less (at_ vi) (at_ k) then k :: insert_left vi rest
      else vi :: k :: rest
  end.

Definition insertion_pass (idx : list nat) : list nat :=
  fold_left (fun racc vi => insert_left vi racc) idx [].

(** The order the backwards prefix is kept in: values do not increase, and
    of two equal values the larger index comes first. *)
Definition desc (k k' : nat) : Prop :=
  less (at_ k) (at_ k') = false /\ (less (at_ k') (at_ k) = false -> k' < k).

End Insertion.

(** An argsort by insertion: the indices [0 .. len v - 1], each inserted in
    turn.  It is one way to meet the contract below, not numpy's algorithm:
    the default kind of [np.argsort] is not stable and may list equal
    values in another order. *)
Definition argsort_insertion {A : Type} (less : A -> A -> bool) (d : A)
           (v : list A) : list nat :=
  rev (insertion_pass less d v (seq 0 (length v))).

Definition Rltb (x y : R) : bool := if Rlt_dec x y then true else false.

(** A value with its index, compared by value first and, for equal values,
    by index in reverse: the larger index is the smaller pair. *)
Definition pair_less (p q : R * nat) : bool :=
  Rltb (fst p) (fst q) || (negb (Rltb (fst q) (fst p)) && (snd q <? snd p)%nat).

(** The contract of [np.argsort], whatever its [kind]: the result lists
    every index once and reads the values in ascending order. *)
Definition argsort_spec (argsort : list R -> list nat) : Prop :=
  forall v,
    Permutation (argsort v) (seq 0 (length v)) /\
    StronglySorted (fun i j => (nth i v 0 <= nth j v 0)%R) (argsort v).

(** A stable argsort keeps equal values in the order of their indices. *)
Definition argsort_stable (argsort : list R -> list nat) : Prop :=
  forall v,
    StronglySorted
      (fun i j => (nth i v 0 < nth j v 0)%R \/
                  (nth i v 0%R = nth j v 0%R /\ i < j))
      (argsort v).

End Numpy.

(** ** Request and response models (pydantic) *)

Module Pydantic.

(** [Field(..., min_length=lo, max_length=hi)] on a [str]. *)
Definition str_length_ok (lo hi : Z) (s : string) : bool :=
  ((lo <=? Z.of_nat (String.length s)) &&
   (Z.of_nat (String.length s) <=? hi))%Z.

(** [Field(..., min_items=lo, max_items=hi)] on a [List[str]]: the number of
    items is bounded, the items themselves are any strings. *)
Definition items_ok (lo hi : Z) (l : list string) : bool :=
  ((lo <=? Z.of_nat (length l)) && (Z.of_nat (length l) <=? hi))%Z.

(** [Field(ge=lo, le=hi)] on an [int]. *)
Definition int_range_ok (lo hi z : Z) : bool :=
  ((lo <=? z) && (z <=? hi))%Z.

(** A key of a JSON body that has a default: left out, [null], or a value. *)
Inductive field (A : Type) : Type :=
| Absent
| Null
| Value (a : A).
Arguments Absent {A}.
Arguments Null {A}.

End Pydantic.

Module EmbedRequest.
Record t : Type := { text : string }.
Definition valid (r : t) : bool := Pydantic.str_length_ok 1 10000 (text r).
End EmbedRequest.

Module EmbedBatchRequest.
Record t : Type := { texts : list string }.
Definition valid (r : t) : bool := Pydantic.items_ok 1 100 (texts r).
End EmbedBatchRequest.

Module EmbedResponse.
Record t : Type := { vector : Vector; dimensions : nat; model : string }.
End EmbedResponse.

Module EmbedBatchResponse.
Record t : Type := {
  vectors : list Vector; count : nat; dimensions : nat; model : string
}.
End EmbedBatchResponse.

Module SimilarityRequest.
Record t : Type := { text1 : string; text2 : string }.
Definition valid (r : t) : bool :=
  Pydantic.str_length_ok 1 10000 (text1 r) &&
  Pydantic.str_length_ok 1 10000 (text2 r).
End SimilarityRequest.

Module SimilarityResponse.
Record t : Type := { score : R; text1 : string; text2 : string }.
End SimilarityResponse.

(** The JSON body of [/similarity/batch], before validation. *)
Module SimilarityBatchBody.
Record t : Type := {
  query : string; candidates : list string; top_k : Pydantic.field Z
}.
End SimilarityBatchBody.

Module SimilarityBatchRequest.
Record t : Type := {
  query : string; candidates : list string; top_k : option Z
}.

(** [top_k: Optional[int] = Field(default=10, ge=1, le=100)]: a missing key
    takes the default, [null] is a value of the optional type and stays
    [None], an integer is checked against the bounds. *)
Definition parse_top_k (f : Pydantic.field Z) : option (option Z) :=
  match f with
  | Pydantic.Absent => Some (Some 10%Z)
  | Pydantic.Null => Some None
  | Pydantic.Value z =>
      if Pydantic.int_range_ok 1 100 z then Some (Some z) else None
  end.

Definition parse (b : SimilarityBatchBody.t) : option t :=
  if Pydantic.str_length_ok 1 10000 (SimilarityBatchBody.query b) &&
     Pydantic.items_ok 1 1000 (SimilarityBatchBody.candidates b)
  then match parse_top_k (SimilarityBatchBody.top_k b) with
       | Some k => Some {| query := SimilarityBatchBody.query b;
                           candidates := SimilarityBatchBody.candidates b;
                           top_k := k |}
       | None => None
       end
  else None.
End SimilarityBatchRequest.

(** One entry of [results]: the dict with keys ["text"], ["score"], ["index"]. *)
Module RankedResult.
Record t : Type := { text : string; score : R; index : nat }.
End RankedResult.

Module SimilarityBatchResponse.
Record t : Type := { query : string; results : list RankedResult.t }.
End SimilarityBatchResponse.

Module HealthResponse.
Record t : Type := { status : string; model : string; model_dimensions : nat }.
End HealthResponse.

(** The dict answered at [/]. *)
Module RootResponse.
Record t : Type := {
  service : string; version : string; model : string; docs : string
}.
End RootResponse.

(** ** Endpoints *)

Section Endpoints.

(** The process-wide configuration and model, and numpy's argsort. *)
Variable MODEL_NAME : string.
Variable model : SentenceTransformer.
Variable argsort : list R -> list nat.

Definition health_check : HTTP HealthResponse.t :=
  HTTP200 {| HealthResponse.status := "ok";
             HealthResponse.model := MODEL_NAME;
             HealthResponse.model_dimensions :=
               get_sentence_embedding_dimension model |}.

Definition embed_text (request : EmbedRequest.t) : HTTP EmbedResponse.t :=
  try_except (
    vector <- encode model (EmbedRequest.text request) ;;
    Return {| EmbedResponse.vector := vector;
              EmbedResponse.dimensions := length vector;
              EmbedResponse.model := MODEL_NAME |}).

Definition embed_batch (request : EmbedBatchRequest.t)
  : HTTP EmbedBatchResponse.t :=
  try_except (
    vectors <- encode_batch model (EmbedBatchRequest.texts request) ;;
    Return {| EmbedBatchResponse.vectors := vectors;
              EmbedBatchResponse.count := length vectors;
              EmbedBatchResponse.dimensions :=
                match vectors with
                | v0 :: _ => length v0
                | [] => 0
                end;
              EmbedBatchResponse.model := MODEL_NAME |}).

Definition calculate_similarity (request : SimilarityRequest.t)
  : HTTP SimilarityResponse.t :=
  try_except (
    embeddings <- encode_batch model [SimilarityRequest.text1 request;
                                      SimilarityRequest.text2 request] ;;
    e0 <- getitem embeddings 0 ;;
    e1 <- getitem embeddings 1 ;;
    kernel <- Sklearn.cosine_similarity [e0] [e1] ;;
    row <- getitem kernel 0 ;;
    score <- getitem row 0 ;;
    Return {| SimilarityResponse.score := score;
              SimilarityResponse.text1 := SimilarityRequest.text1 request;
              SimilarityResponse.text2 := SimilarityRequest.text2 request |}).

(** The body of the list comprehension over [indices]. *)
Definition ranked_result (candidates : list string) (similarities : list R)
           (i : nat) : result RankedResult.t :=
  text <- getitem candidates i ;;
  score <- getitem similarities i ;;
  Return {| RankedResult.text := text;
            RankedResult.score := score;
            RankedResult.index := i |}.

Definition find_similar (request : SimilarityBatchRequest.t)
  : HTTP SimilarityBatchResponse.t :=
  try_except (
    query_batch <- encode_batch model [SimilarityBatchRequest.query request] ;;
    query_embedding <- getitem query_batch 0 ;;
    candidate_embeddings <-
      encode_batch model (SimilarityBatchRequest.candidates request) ;;
    kernel <- Sklearn.cosine_similarity [query_embedding]
                                        candidate_embeddings ;;
    similarities <- getitem kernel 0 ;;
    let indices :=
      slice_to (SimilarityBatchRequest.top_k request)
               (rev (argsort similarities)) in
    results <-
      mapM (ranked_result (SimilarityBatchRequest.candidates request)
                          similarities) indices ;;
    Return {| SimilarityBatchResponse.query :=
                SimilarityBatchRequest.query request;
              SimilarityBatchResponse.results := results |}).

Definition root : HTTP RootResponse.t :=
  HTTP200 {| RootResponse.service := "WikiGraph Embeddings";
             RootResponse.version := "0.1.0";
             RootResponse.model := MODEL_NAME;
             RootResponse.docs := "/docs" |}.

(** The routes: the framework validates the body against the request model
    and answers 422 itself when that fails; only a valid request reaches
    the handler. *)
Definition post_embed (body : EmbedRequest.t) : HTTP EmbedResponse.t :=
  if EmbedRequest.valid body then embed_text body else HTTP422.

Definition post_embed_batch (body : EmbedBatchRequest.t)
  : HTTP EmbedBatchResponse.t :=
  if EmbedBatchRequest.valid body then embed_batch body else HTTP422.

Definition post_similarity (body : SimilarityRequest.t)
  : HTTP SimilarityResponse.t :=
  if SimilarityRequest.valid body then calculate_similarity body else HTTP422.

Definition post_similarity_batch (body : SimilarityBatchBody.t)
  : HTTP SimilarityBatchResponse.t :=
  match SimilarityBatchRequest.parse body with
  | Some request => find_similar request
  | None => HTTP422
  end.

End Endpoints.

(** ** Concrete instances *)

(** An argsort that lists equal values in index order (the insertion sort
    on the values). *)
Definition argsort_short : list R -> list nat :=
  Numpy.argsort_insertion Numpy.Rltb 0%R.

(** An argsort that lists equal values in reverse index order (the insertion
    sort on the values paired with their indices). *)
Definition argsort_anti (v : list R) : list nat :=
  Numpy.argsort_insertion Numpy.pair_less (0%R, 0)
                          (combine v (seq 0 (length v))).

(** A one-dimensional model that embeds every text as the vector [[1]]. *)
Definition unit_model : SentenceTransformer :=
  {| forward := fun _ => Return [1%R];
     get_sentence_embedding_dimension := 1 |}.


(** A model on which every call raises. *)
Definition broken_model : SentenceTransformer :=
  {| forward := fun _ => Raise "model error";
     get_sentence_embedding_dimension := 0 |}.

(** A two-dimensional model: ["dog"] lies on the second axis, every other
    text on the first. *)
Definition axis_model : SentenceTransformer :=
  {| forward := fun t => if String.eqb t "dog"
                         then Return [0%R; 1%R] else Return [1%R; 0%R];
     get_sentence_embedding_dimension := 2 |}.

(** A text of [n] characters. *)
Fixpoint text_of_length (n : nat) : string :=
  match n with
  | O => EmptyString
  | S n' => String "a"%char (text_of_length n')
  end.

(** ** Vocabulary of the properties *)

(** The model embeds every text of the list, in one common, non-zero
    dimension. *)
Definition embeds_all (model : SentenceTransformer) (texts : list string)
  : Prop :=
  exists n, 0 < n /\
            forall t, In t texts ->
                      exists v, forward model t = Return v /\ length v = n.

(** The results built from a list of indices. *)
Definition ranking (candidates : list string) (similarities : list R)
           (indices : list nat) : list RankedResult.t :=
  map (fun i => {| RankedResult.text := nth i candidates "";
                   RankedResult.score := nth i similarities 0%R;
                   RankedResult.index := i |}) indices.

(** Ties by ascending index: among results of equal score, the one with the
    smaller original index comes first. *)
Definition ties_by_index_ascending (results : list RankedResult.t) : Prop :=
  forall p q r1 r2,
    nth_error results p = Some r1 -> nth_error results q = Some r2 ->
    RankedResult.score r1 = RankedResult.score r2 ->
    RankedResult.index r1 < RankedResult.index r2 -> p < q.

(** [i] occurs in the list at an earlier position than [j]. *)
Definition listed_before (l : list nat) (i j : nat) : Prop :=
  exists p q, p < q /\ nth_error l p = Some i /\ nth_error l q = Some j.


(** The number of results [top_k] allows out of [n] candidates. *)
Definition limit (top_k : option Z) (n : nat) : nat :=
  match top_k with
  | Some k => Nat.min (Z.to_nat k) n
  | None => n
  end.

(** The score of a response, when there is one. *)
Definition score_of (r : HTTP SimilarityResponse.t) : option R :=
  match r with
  | HTTP200 body => Some (SimilarityResponse.score body)
  | _ => None
  end.

(** The cosine of two embeddings, as an entry of the kernel matrix holds it. *)
Definition cosine (a b : Vector) : R :=
  Sklearn.dot (Sklearn.normalize_row a) (Sklearn.normalize_row b).

(** The model embeds the query of a request as [q] and its candidates as the
    rows [cands], each of the length of [q], which is not zero. *)
Definition embedded (model : SentenceTransformer)
           (request : SimilarityBatchRequest.t)
           (q : Vector) (cands : list Vector) : Prop :=
  forward model (SimilarityBatchRequest.query request) = Return q /\
  mapM (forward model) (SimilarityBatchRequest.candidates request)
  = Return cands /\
  q <> [] /\ Forall (fun y => length y = length q) cands.

(** The bounds a request model puts on a body. *)
Definition text_in_bounds (s : string) : Prop :=
  (1 <= Z.of_nat (String.length s) <= 10000)%Z.

Definition top_k_in_bounds (f : Pydantic.field Z) : Prop :=
  match f with
  | Pydantic.Value z => (1 <= z <= 100)%Z
  | _ => True
  end.

(** * Properties *)

(** ** Prefixes of a list *)

Lemma in_firstn (A : Type) (n : nat) (l : list A) (x : A) :
  In x (firstn n l) -> In x l.
Proof.
  intros H. rewrite <- (firstn_skipn n l). apply in_or_app; auto.
Qed.

Lemma NoDup_firstn (A : Type) (n : nat) (l : list A) :
  NoDup l -> NoDup (firstn n l).
Proof.
  intros H. rewrite <- (firstn_skipn n l) in H.
  eapply NoDup_app_remove_r; eauto.
Qed.

(** ** Lists sorted for a relation *)

Section SortedFacts.

Variable A : Type.
Variable rel : A -> A -> Prop.

Lemma StronglySorted_app (l1 l2 : list A) :
  StronglySorted rel l1 -> StronglySorted rel l2 ->
  (forall x y, In x l1 -> In y l2 -> rel x y) ->
  StronglySorted rel (l1 ++ l2).
Proof.
  induction l1 as [|a l1 IH]; simpl; intros H1 H2 Hx; [exact H2|].
  apply StronglySorted_inv in H1 as [H1 Ha].
  constructor.
  - apply IH; auto.
  - apply Forall_app; split; [exact Ha|].
    apply Forall_forall; intros y Hy; apply Hx; auto.
Qed.

Lemma StronglySorted_firstn (n : nat) (l : list A) :
  StronglySorted rel l -> StronglySorted rel (firstn n l).
Proof.
  intros H; revert n; induction H as [|a l Hl IH Ha]; intros [|n]; simpl;
    try constructor; auto.
  rewrite Forall_forall in *; intros x Hx; apply Ha.
  eapply in_firstn; eauto.
Qed.

Lemma StronglySorted_weaken (rel' : A -> A -> Prop) (l : list A) :
  (forall x y, In x l -> In y l -> rel x y -> rel' x y) ->
  StronglySorted rel l -> StronglySorted rel' l.
Proof.
  intros Himp H; induction H as [|a l Hl IH Ha]; constructor.
  - apply IH; intros; apply Himp; simpl; auto.
  - rewrite Forall_forall in *; intros x Hx.
    apply Himp; simpl; auto.
Qed.

Lemma StronglySorted_nth_error (l : list A) (p q : nat) (a b : A) :
  StronglySorted rel l -> p < q ->
  nth_error l p = Some a -> nth_error l q = Some b -> rel a b.
Proof.
  intros H; revert p q; induction H as [|x l Hl IH Hx]; intros p q Hpq Hp Hq.
  - destruct p; discriminate.
  - destruct q as [|q]; [lia|]. simpl in Hq.
    destruct p as [|p]; simpl in Hp.
    + injection Hp as <-. rewrite Forall_forall in Hx.
      apply Hx. eapply nth_error_In; eauto.
    + apply (IH p q); auto; lia.
Qed.

End SortedFacts.

Lemma StronglySorted_rev (A : Type) (rel : A -> A -> Prop) (l : list A) :
  StronglySorted rel l -> StronglySorted (fun x y => rel y x) (rev l).
Proof.
  induction 1 as [|a l Hl IH Ha]; simpl; [constructor|].
  apply StronglySorted_app; [exact IH|repeat constructor|].
  intros x y Hx [<-|[]]. apply in_rev in Hx.
  rewrite Forall_forall in Ha; auto.
Qed.

Lemma StronglySorted_map (A B : Type) (f : A -> B) (rel : B -> B -> Prop)
      (l : list A) :
  StronglySorted (fun x y => rel (f x) (f y)) l -> StronglySorted rel (map f l).
Proof.
  induction 1 as [|a l Hl IH Ha]; simpl; constructor; auto.
  rewrite Forall_forall in *; intros y Hy.
  apply in_map_iff in Hy as [x [<- Hx]]; auto.
Qed.

(** ** The insertion pass sorts, and keeps ties in index order *)

Section InsertionFacts.

Variable A : Type.
Variable less : A -> A -> bool.
Variable d : A.
Variable v : list A.

Hypothesis less_asym : forall x y, less x y = true -> less y x = false.
Hypothesis less_negtrans :
  forall x y z, less x y = false -> less y z = false -> less x z = false.

Local Abbreviation val := (Numpy.at_ d v).
Local Abbreviation ins := (Numpy.insert_left less d v).
Local Abbreviation desc := (Numpy.desc less d v).

Lemma insert_left_perm (vi : nat) (racc : list nat) :
  Permutation (ins vi racc) (vi :: racc).
Proof.
  induction racc as [|k rest IH]; simpl; [reflexivity|].
  destruct (less _ _); [|reflexivity].
  rewrite IH. apply perm_swap.
Qed.

Lemma insert_left_sorted (vi : nat) (racc : list nat) :
  Forall (fun k => k < vi) racc ->
  StronglySorted desc racc -> StronglySorted desc (ins vi racc).
Proof.
  intros Hlt Hs. induction Hs as [|k rest Hs IH Hk]; simpl.
  - repeat constructor.
  - apply Forall_cons_iff in Hlt as [Hkvi Hlt].
    destruct (less (val vi) (val k)) eqn:E.
    + constructor; [apply IH; exact Hlt|].
      apply Forall_forall; intros x Hx.
      apply (Permutation_in _ (insert_left_perm vi rest)) in Hx.
      destruct Hx as [<-|Hx].
      * split; [apply less_asym; exact E|]. rewrite E; discriminate.
      * rewrite Forall_forall in Hk; auto.
    + constructor; [constructor; auto|].
      constructor; [split; auto|].
      rewrite Forall_forall in *; intros x Hx.
      destruct (Hk x Hx) as [Hkx _].
      split; [eapply less_negtrans; eauto|]. intros _; apply Hlt; exact Hx.
Qed.

Lemma insertion_fold_perm (idx acc : list nat) :
  Permutation (fold_left (fun racc vi => ins vi racc) idx acc) (idx ++ acc).
Proof.
  revert acc; induction idx as [|i idx IH]; intros acc; simpl; [reflexivity|].
  rewrite IH, insert_left_perm. symmetry; apply Permutation_middle.
Qed.

Lemma insertion_fold_sorted (n a : nat) (acc : list nat) :
  Forall (fun k => k < a) acc -> StronglySorted desc acc ->
  StronglySorted desc (fold_left (fun racc vi => ins vi racc) (seq a n) acc).
Proof.
  revert a acc; induction n as [|n IH]; intros a acc Hlt Hs; simpl; [exact Hs|].
  apply IH.
  - apply Forall_forall; intros x Hx.
    apply (Permutation_in _ (insert_left_perm a acc)) in Hx.
    destruct Hx as [<-|Hx]; [lia|].
    rewrite Forall_forall in Hlt; specialize (Hlt x Hx); lia.
  - apply insert_left_sorted; assumption.
Qed.

Lemma argsort_insertion_perm :
  Permutation (Numpy.argsort_insertion less d v) (seq 0 (length v)).
Proof.
  unfold Numpy.argsort_insertion, Numpy.insertion_pass.
  rewrite <- Permutation_rev.
  rewrite insertion_fold_perm, app_nil_r. reflexivity.
Qed.

Lemma argsort_insertion_sorted :
  StronglySorted (fun i j => desc j i) (Numpy.argsort_insertion less d v).
Proof.
  unfold Numpy.argsort_insertion, Numpy.insertion_pass.
  apply StronglySorted_rev.
  apply insertion_fold_sorted; constructor.
Qed.

End InsertionFacts.

(** The insertion pass on integers, run on small arrays. *)
Example argsort_insertion_distinct :
  Numpy.argsort_insertion Z.ltb 0%Z [30; 10; 20]%Z = [1; 2; 0].
Proof. reflexivity. Qed.

Example argsort_insertion_ties :
  Numpy.argsort_insertion Z.ltb 0%Z [5; 5; 1; 5]%Z = [2; 0; 1; 3].
Proof. reflexivity. Qed.

(** The bounds on [top_k], and the slice it drives. *)
Example parse_top_k_cases :
  SimilarityBatchRequest.parse_top_k Pydantic.Absent = Some (Some 10%Z) /\
  SimilarityBatchRequest.parse_top_k Pydantic.Null = Some None /\
  SimilarityBatchRequest.parse_top_k (Pydantic.Value 0%Z) = None /\
  SimilarityBatchRequest.parse_top_k (Pydantic.Value 1%Z) = Some (Some 1%Z) /\
  SimilarityBatchRequest.parse_top_k (Pydantic.Value 100%Z)
  = Some (Some 100%Z) /\
  SimilarityBatchRequest.parse_top_k (Pydantic.Value 101%Z) = None.
Proof. repeat split. Qed.

Example slice_to_cases :
  slice_to (Some 2%Z) [7; 8; 9] = [7; 8] /\
  slice_to (Some 5%Z) [7; 8; 9] = [7; 8; 9] /\
  slice_to None [7; 8; 9] = [7; 8; 9].
Proof. repeat split. Qed.

(** The ranking of integer scores by the insertion pass: descending, and
    the later of two equal scores first. *)
Example reversed_argsort_ties :
  rev (Numpy.argsort_insertion Z.ltb 0%Z [5; 9; 5; 1]%Z) = [1; 2; 0; 3].
Proof. reflexivity. Qed.

(** ** The insertion pass on reals meets the contract of argsort *)

Lemma Rltb_true (x y : R) : Numpy.Rltb x y = true <-> (x < y)%R.
Proof.
  unfold Numpy.Rltb; destruct (Rlt_dec x y); split; intros; auto; discriminate.
Qed.

Lemma Rltb_false (x y : R) : Numpy.Rltb x y = false <-> (y <= x)%R.
Proof.
  unfold Numpy.Rltb; destruct (Rlt_dec x y); split; intros; auto;
    try discriminate; lra.
Qed.

Lemma Rltb_asym (x y : R) : Numpy.Rltb x y = true -> Numpy.Rltb y x = false.
Proof. rewrite Rltb_true, Rltb_false; lra. Qed.

Lemma Rltb_negtrans (x y z : R) :
  Numpy.Rltb x y = false -> Numpy.Rltb y z = false -> Numpy.Rltb x z = false.
Proof. rewrite !Rltb_false; lra. Qed.

Lemma argsort_short_stable : Numpy.argsort_stable argsort_short.
Proof.
  intros v. unfold argsort_short.
  eapply StronglySorted_weaken;
    [|apply (@argsort_insertion_sorted _ Numpy.Rltb 0%R v Rltb_asym Rltb_negtrans)].
  intros i j _ _ [Hle Hidx]; unfold Numpy.at_ in *.
  rewrite Rltb_false in Hle, Hidx.
  destruct (Rlt_dec (nth i v 0%R) (nth j v 0%R)) as [Hlt|Hge]; [left; exact Hlt|].
  right; split; [lra|apply Hidx; lra].
Qed.

Lemma argsort_short_spec : Numpy.argsort_spec argsort_short.
Proof.
  intros v; split.
  - apply argsort_insertion_perm.
  - eapply StronglySorted_weaken; [|apply argsort_short_stable].
    simpl; intros i j _ _ [H|[H _]]; lra.
Qed.

(** ** The insertion sort on pairs meets the contract too *)

Lemma pair_less_true (p q : R * nat) :
  Numpy.pair_less p q = true <->
  (fst p < fst q)%R \/ (fst p = fst q /\ snd q < snd p).
Proof.
  unfold Numpy.pair_less.
  rewrite orb_true_iff, andb_true_iff, negb_true_iff, Rltb_true, Rltb_false,
    Nat.ltb_lt.
  destruct (Rtotal_order (fst p) (fst q)) as [H|[H|H]];
    intuition (try lra; try lia).
Qed.

Lemma pair_less_false (p q : R * nat) :
  Numpy.pair_less p q = false <->
  (fst q < fst p)%R \/ (fst p = fst q /\ snd p <= snd q).
Proof.
  rewrite <- not_true_iff_false, pair_less_true.
  destruct (Rtotal_order (fst p) (fst q)) as [H|[H|H]];
    intuition (try lra; try lia).
Qed.

Lemma pair_less_asym (p q : R * nat) :
  Numpy.pair_less p q = true -> Numpy.pair_less q p = false.
Proof.
  rewrite pair_less_true, pair_less_false. intuition (try lra; try lia).
Qed.

Lemma pair_less_negtrans (p q r : R * nat) :
  Numpy.pair_less p q = false -> Numpy.pair_less q r = false ->
  Numpy.pair_less p r = false.
Proof.
  rewrite !pair_less_false. intuition (try lra; try lia).
Qed.

Lemma argsort_anti_spec : Numpy.argsort_spec argsort_anti.
Proof.
  intros v. unfold argsort_anti.
  set (v' := combine v (seq 0 (length v))).
  assert (length v' = length v) as Hlen.
  { unfold v'. rewrite length_combine, length_seq. apply Nat.min_id. }
  split.
  - rewrite <- Hlen. apply argsort_insertion_perm.
  - eapply StronglySorted_weaken;
      [|apply (@argsort_insertion_sorted _ Numpy.pair_less (0%R, 0) v'
                 pair_less_asym pair_less_negtrans)].
    intros i j _ _ [Hle _]. unfold Numpy.at_, v' in Hle.
    rewrite !combine_nth in Hle by (rewrite length_seq; reflexivity).
    apply pair_less_false in Hle. simpl in Hle. destruct Hle as [H|[H _]]; lra.
Qed.

(** The two instances part on equal values. *)
Lemma argsort_anti_pair (c : R) : argsort_anti [c; c] = [1; 0].
Proof.
  unfold argsort_anti, Numpy.argsort_insertion, Numpy.insertion_pass.
  cbn [length seq combine fold_left Numpy.insert_left Numpy.at_ nth].
  rewrite (proj2 (pair_less_true (c, 1) (c, 0))) by (right; simpl; auto).
  reflexivity.
Qed.

(** ** Calls that return *)

Lemma mapM_Forall2 (A B : Type) (f : A -> result B) (l : list A) (bs : list B) :
  mapM f l = Return bs <-> Forall2 (fun a b => f a = Return b) l bs.
Proof.
  revert bs; induction l as [|a l IH]; intros bs; simpl.
  - split; [intros [= <-]; constructor|intros H; inversion H; reflexivity].
  - split.
    + destruct (f a) as [b|msg] eqn:Ea; simpl; [|discriminate].
      destruct (mapM f l) as [bs'|msg] eqn:El; simpl; [|discriminate].
      intros [= <-]. constructor; [exact Ea|]. apply IH; reflexivity.
    + intros H; inversion H as [|a' b l' bs' Hab Hl]; subst.
      rewrite Hab; simpl. apply IH in Hl. rewrite Hl; reflexivity.
Qed.

Lemma mapM_map (A B : Type) (f : A -> result B) (g : A -> B) (l : list A) :
  (forall a, In a l -> f a = Return (g a)) -> mapM f l = Return (map g l).
Proof.
  induction l as [|a l IH]; intros H; simpl; [reflexivity|].
  rewrite (H a) by (simpl; auto). simpl.
  rewrite IH by (intros; apply H; simpl; auto). reflexivity.
Qed.

Lemma mapM_length (A B : Type) (f : A -> result B) (l : list A) (bs : list B) :
  mapM f l = Return bs -> length bs = length l.
Proof.
  rewrite mapM_Forall2; intros H; symmetry; eapply Forall2_length; eauto.
Qed.

Lemma getitem_Return (A : Type) (l : list A) (i : nat) (a : A) :
  getitem l i = Return a <-> nth_error l i = Some a.
Proof.
  unfold getitem; destruct (nth_error l i); split; intros H;
    try discriminate; congruence.
Qed.

(** ** Cosine similarity as sklearn computes it *)

Section CosineFacts.

Import Sklearn.
Local Open Scope R_scope.

Lemma dot_cons (x y : R) (xs ys : Vector) :
  dot (x :: xs) (y :: ys) = x * y + dot xs ys.
Proof. reflexivity. Qed.

Lemma dot_comm (x y : Vector) : dot x y = dot y x.
Proof.
  revert y; induction x as [|a x IH]; intros [|b y]; try reflexivity.
  rewrite !dot_cons, IH; ring.
Qed.

Lemma dot_self_nonneg (x : Vector) : 0 <= dot x x.
Proof.
  induction x as [|a x IH]; [unfold dot; simpl; lra|].
  rewrite dot_cons. nra.
Qed.

Lemma dot_scale (c e : R) (x y : Vector) :
  c <> 0 -> e <> 0 ->
  dot (map (fun xi => xi / c) x) (map (fun yi => yi / e) y) = dot x y / (c * e).
Proof.
  intros Hc He; revert y; induction x as [|a x IH]; intros [|b y]; simpl;
    try (unfold dot; simpl; field; auto).
  rewrite !dot_cons, IH. field; auto.
Qed.

Lemma dot_zeros_l (x y : Vector) : Forall (fun xi => xi = 0) x -> dot x y = 0.
Proof.
  intros H; revert y; induction H as [|a x Ha Hx IH]; intros [|b y];
    try reflexivity.
  rewrite dot_cons, IH, Ha; ring.
Qed.

Lemma dot_self_eq_0 (x : Vector) : dot x x = 0 -> Forall (fun xi => xi = 0) x.
Proof.
  induction x as [|a x IH]; [constructor|].
  rewrite dot_cons; intros H.
  pose proof (dot_self_nonneg x). constructor; [nra|apply IH; nra].
Qed.

Lemma row_norm_eq_0 (x : Vector) :
  row_norm x = 0 -> Forall (fun xi => xi = 0) x.
Proof.
  unfold row_norm; intros H. apply dot_self_eq_0.
  apply sqrt_eq_0; [apply dot_self_nonneg|exact H].
Qed.

Lemma normalize_row_zeros (x : Vector) :
  Forall (fun xi => xi = 0) x -> Forall (fun xi => xi = 0) (normalize_row x).
Proof.
  unfold normalize_row; intros H. apply Forall_map.
  eapply Forall_impl; [|exact H]. simpl; intros a ->. unfold Rdiv; ring.
Qed.

Lemma eps_pos : 0 < 10 * eps.
Proof.
  unfold eps. assert (0 < / 8388608) by (apply Rinv_0_lt_compat; lra). lra.
Qed.

(** A row whose norm is below ten machine epsilons is left as it is; any
    other row is divided by its norm. *)
Lemma normalize_row_small (a : Vector) :
  row_norm a < 10 * eps -> normalize_row a = a.
Proof.
  intros H. unfold normalize_row, handle_zeros_in_scale.
  destruct (Rlt_dec (row_norm a) (10 * eps)); [|contradiction].
  rewrite <- (map_id a) at 2. apply map_ext. intros x. field.
Qed.

Lemma normalize_row_large (a : Vector) :
  ~ row_norm a < 10 * eps ->
  normalize_row a = map (fun xi => xi / row_norm a) a.
Proof.
  intros H. unfold normalize_row, handle_zeros_in_scale.
  destruct (Rlt_dec (row_norm a) (10 * eps)); [contradiction|reflexivity].
Qed.

(** The entry of the kernel matrix is 0 when one of the rows has norm 0:
    that row is left as it is, and all its entries are 0. *)
Lemma kernel_zero_norm (a b : Vector) :
  row_norm a = 0 \/ row_norm b = 0 ->
  dot (normalize_row a) (normalize_row b) = 0.
Proof.
  pose proof eps_pos as He.
  intros [H|H].
  - rewrite (normalize_row_small a) by lra.
    apply dot_zeros_l, row_norm_eq_0, H.
  - rewrite dot_comm, (normalize_row_small b) by lra.
    apply dot_zeros_l, row_norm_eq_0, H.
Qed.

(** Over the reals, the product of a divided row with itself is 1. *)
Lemma cosine_self (a : Vector) :
  ~ row_norm a < 10 * eps -> dot (normalize_row a) (normalize_row a) = 1.
Proof.
  intros Ha. pose proof eps_pos as He.
  rewrite (normalize_row_large a Ha).
  assert (row_norm a <> 0) as Hne by lra.
  rewrite dot_scale by assumption.
  unfold row_norm in *. rewrite sqrt_sqrt by apply dot_self_nonneg.
  field. intros E; apply Hne; rewrite E; apply sqrt_0.
Qed.

Example cosine_zero_vector :
  dot (normalize_row [0; 0]) (normalize_row [3; 4]) = 0.
Proof.
  apply kernel_zero_norm; left.
  unfold row_norm, dot; simpl.
  replace (0 * 0 + (0 * 0 + 0)) with 0 by ring. apply sqrt_0.
Qed.

Lemma same_width_length (n : nat) (X : list Vector) :
  same_width n X = true <-> Forall (fun x => length x = n) X.
Proof.
  unfold same_width. rewrite forallb_forall, Forall_forall.
  split; intros H x Hx; apply Nat.eqb_eq, H, Hx.
Qed.

(** One row against the rows of [Y]: the kernel has the single row of the
    products with the normalised rows of [Y]. *)
Lemma cosine_similarity_row (q : Vector) (Y : list Vector) :
  q <> [] -> Y <> [] -> Forall (fun y => length y = length q) Y ->
  cosine_similarity [q] Y =
  Return [map (dot (normalize_row q)) (normalize Y)].
Proof.
  intros Hq HY Hw. unfold cosine_similarity, check_pairwise_arrays.
  destruct Y as [|y Y]; [contradiction|].
  destruct (length q =? 0)%nat eqn:E.
  - apply Nat.eqb_eq in E. destruct q; [contradiction|discriminate].
  - apply same_width_length in Hw. rewrite Hw.
    simpl. rewrite Nat.eqb_refl. reflexivity.
Qed.

End CosineFacts.

(** ** Validation *)

Lemma str_length_ok_iff (lo hi : Z) (s : string) :
  Pydantic.str_length_ok lo hi s = true <->
  (lo <= Z.of_nat (String.length s) <= hi)%Z.
Proof. unfold Pydantic.str_length_ok; lia. Qed.

Lemma items_ok_iff (lo hi : Z) (l : list string) :
  Pydantic.items_ok lo hi l = true <-> (lo <= Z.of_nat (length l) <= hi)%Z.
Proof. unfold Pydantic.items_ok; lia. Qed.

Lemma length_text_of_length (n : nat) : String.length (text_of_length n) = n.
Proof. induction n; simpl; congruence. Qed.

(** ** The embedding endpoints *)

(** C7: [/embed] accepts a text of exactly 10000 characters (the handler runs
    and the answer is not a validation error), and answers 422 for a text of
    10001 characters and for the empty text, whatever the model is: the
    rejection does not depend on the model, which is not called. *)
Theorem post_embed_length_boundary
        (MODEL_NAME : string) (model : SentenceTransformer)
        (body : EmbedRequest.t) :
  (Z.of_nat (String.length (EmbedRequest.text body)) = 10000%Z ->
   post_embed MODEL_NAME model body = embed_text MODEL_NAME model body /\
   post_embed MODEL_NAME model body <> HTTP422) /\
  (Z.of_nat (String.length (EmbedRequest.text body)) = 10001%Z ->
   post_embed MODEL_NAME model body = HTTP422) /\
  (EmbedRequest.text body = EmptyString ->
   post_embed MODEL_NAME model body = HTTP422).
Proof.
  unfold post_embed, EmbedRequest.valid.
  destruct (Pydantic.str_length_ok 1 10000 (EmbedRequest.text body)) eqn:E.
  - apply str_length_ok_iff in E. repeat split; try (intros; lia).
    + unfold embed_text. destruct (encode _ _); simpl; discriminate.
    + intros H; rewrite H in E; simpl in E; lia.
  - assert (~ (1 <= Z.of_nat (String.length (EmbedRequest.text body))
               <= 10000)%Z) as N
        by (rewrite <- str_length_ok_iff, E; discriminate).
    repeat split; auto; intros; lia.
Qed.

Lemma post_embed_length_boundary_witness :
  post_embed "all-MiniLM-L6-v2" unit_model
             {| EmbedRequest.text := text_of_length (Z.to_nat 10000) |}
  = HTTP200 {| EmbedResponse.vector := [1%R];
               EmbedResponse.dimensions := 1;
               EmbedResponse.model := "all-MiniLM-L6-v2" |} /\
  post_embed "all-MiniLM-L6-v2" broken_model
             {| EmbedRequest.text := text_of_length (Z.to_nat 10001) |}
  = HTTP422 /\
  post_embed "all-MiniLM-L6-v2" broken_model {| EmbedRequest.text := "" |}
  = HTTP422.
Proof.
  split; [|split].
  - destruct (post_embed_length_boundary "all-MiniLM-L6-v2" unit_model
                {| EmbedRequest.text := text_of_length (Z.to_nat 10000) |})
      as [H _].
    destruct H as [H _].
    + cbn [EmbedRequest.text]. rewrite length_text_of_length. lia.
    + rewrite H. reflexivity.
  - apply (proj1 (proj2 (post_embed_length_boundary
             "all-MiniLM-L6-v2" broken_model
             {| EmbedRequest.text := text_of_length (Z.to_nat 10001) |}))).
    cbn [EmbedRequest.text]. rewrite length_text_of_length. lia.
  - apply (proj2 (proj2 (post_embed_length_boundary
             "all-MiniLM-L6-v2" broken_model {| EmbedRequest.text := "" |}))).
    reflexivity.
Defined.

(** C6: on a model whose embeddings all have the reported dimension, a valid
    text that the model embeds gets a 200 response whose [dimensions] is the
    length of its [vector] and the value [/health] reports as
    [model_dimensions]. *)
Theorem post_embed_dimensions
        (MODEL_NAME : string) (model : SentenceTransformer)
        (body : EmbedRequest.t) (v : Vector) :
  fixed_dimension model ->
  EmbedRequest.valid body = true ->
  encode model (EmbedRequest.text body) = Return v ->
  exists r h,
    post_embed MODEL_NAME model body = HTTP200 r /\
    health_check MODEL_NAME model = HTTP200 h /\
    EmbedResponse.vector r = v /\
    EmbedResponse.dimensions r = length (EmbedResponse.vector r) /\
    EmbedResponse.dimensions r = get_sentence_embedding_dimension model /\
    EmbedResponse.dimensions r = HealthResponse.model_dimensions h.
Proof.
  intros Hdim Hvalid Henc.
  unfold post_embed, embed_text, health_check. rewrite Hvalid, Henc; simpl.
  eexists; eexists; repeat split; simpl; apply (Hdim _ _ Henc).
Qed.

Lemma unit_model_fixed_dimension : fixed_dimension unit_model.
Proof. intros t v [= <-]; reflexivity. Qed.

Lemma post_embed_dimensions_witness :
  exists r h,
    post_embed "all-MiniLM-L6-v2" unit_model {| EmbedRequest.text := "kitten" |}
    = HTTP200 r /\
    health_check "all-MiniLM-L6-v2" unit_model = HTTP200 h /\
    EmbedResponse.vector r = [1%R] /\
    EmbedResponse.dimensions r = length (EmbedResponse.vector r) /\
    EmbedResponse.dimensions r = 1 /\
    EmbedResponse.dimensions r = HealthResponse.model_dimensions h.
Proof.
  apply (@post_embed_dimensions "all-MiniLM-L6-v2" unit_model
           {| EmbedRequest.text := "kitten" |} [1%R]).
  - exact unit_model_fixed_dimension.
  - reflexivity.
  - reflexivity.
Defined.

(** C5: for a valid text [t], [/embed/batch] on the one-element list [[t]]
    answers 200 exactly when [/embed] on [t] does, and then its list of
    vectors is the single vector [/embed] returns (equal, hence within any
    tolerance). *)
Theorem post_embed_batch_singleton
        (MODEL_NAME : string) (model : SentenceTransformer) (t : string) :
  EmbedRequest.valid {| EmbedRequest.text := t |} = true ->
  (forall r,
      post_embed MODEL_NAME model {| EmbedRequest.text := t |} = HTTP200 r ->
      exists rb,
        post_embed_batch MODEL_NAME model {| EmbedBatchRequest.texts := [t] |}
        = HTTP200 rb /\
        EmbedBatchResponse.vectors rb = [EmbedResponse.vector r]) /\
  (forall rb,
      post_embed_batch MODEL_NAME model {| EmbedBatchRequest.texts := [t] |}
      = HTTP200 rb ->
      exists r,
        post_embed MODEL_NAME model {| EmbedRequest.text := t |} = HTTP200 r /\
        EmbedBatchResponse.vectors rb = [EmbedResponse.vector r]).
Proof.
  intros Hvalid.
  unfold post_embed, post_embed_batch, embed_text, embed_batch.
  rewrite Hvalid. cbn [EmbedBatchRequest.valid EmbedBatchRequest.texts
                       EmbedRequest.text Pydantic.items_ok length].
  change ((1 <=? Z.of_nat 1)%Z && (Z.of_nat 1 <=? 100)%Z) with true.
  unfold encode, encode_batch; simpl.
  destruct (forward model t) as [v|msg]; simpl.
  - split; [intros r [= <-]|intros rb [= <-]]; eexists; split; reflexivity.
  - split; discriminate.
Qed.

Lemma post_embed_batch_singleton_witness :
  (forall r,
      post_embed "all-MiniLM-L6-v2" unit_model
                 {| EmbedRequest.text := "kitten" |} = HTTP200 r ->
      exists rb,
        post_embed_batch "all-MiniLM-L6-v2" unit_model
                         {| EmbedBatchRequest.texts := ["kitten"] |}
        = HTTP200 rb /\
        EmbedBatchResponse.vectors rb = [EmbedResponse.vector r]) /\
  (forall rb,
      post_embed_batch "all-MiniLM-L6-v2" unit_model
                       {| EmbedBatchRequest.texts := ["kitten"] |}
      = HTTP200 rb ->
      exists r,
        post_embed "all-MiniLM-L6-v2" unit_model
                   {| EmbedRequest.text := "kitten" |} = HTTP200 r /\
        EmbedBatchResponse.vectors rb = [EmbedResponse.vector r]).
Proof.
  apply (@post_embed_batch_singleton "all-MiniLM-L6-v2" unit_model "kitten").
  reflexivity.
Defined.

(** C8: when [/embed/batch] answers 200, its vectors are the embeddings of
    the texts, one for one and in the order of the texts, [count] is their
    number, and [dimensions] is 0 if there is none; a batch of 1 to 100 texts
    that the model embeds gets such an answer, with at least one vector.  The
    handler answers an empty batch with no vector and dimension 0, and the
    route never hands it one: an empty batch is a validation error. *)
Theorem embed_batch_one_vector_per_text
        (MODEL_NAME : string) (model : SentenceTransformer)
        (request : EmbedBatchRequest.t) :
  (forall r,
      embed_batch MODEL_NAME model request = HTTP200 r ->
      Forall2 (fun t v => encode model t = Return v)
              (EmbedBatchRequest.texts request)
              (EmbedBatchResponse.vectors r) /\
      EmbedBatchResponse.count r = length (EmbedBatchResponse.vectors r) /\
      EmbedBatchResponse.count r = length (EmbedBatchRequest.texts request) /\
      (EmbedBatchResponse.vectors r = [] ->
       EmbedBatchResponse.dimensions r = 0)) /\
  ((1 <= Z.of_nat (length (EmbedBatchRequest.texts request)) <= 100)%Z ->
   (forall t, In t (EmbedBatchRequest.texts request) ->
              exists v, encode model t = Return v) ->
   exists r,
     post_embed_batch MODEL_NAME model request = HTTP200 r /\
     embed_batch MODEL_NAME model request = HTTP200 r /\
     EmbedBatchResponse.vectors r <> []) /\
  (EmbedBatchRequest.texts request = [] ->
   embed_batch MODEL_NAME model request
   = HTTP200 {| EmbedBatchResponse.vectors := [];
                EmbedBatchResponse.count := 0;
                EmbedBatchResponse.dimensions := 0;
                EmbedBatchResponse.model := MODEL_NAME |} /\
   post_embed_batch MODEL_NAME model request = HTTP422).
Proof.
  split; [|split].
  - intros r. unfold embed_batch, encode_batch.
    destruct (mapM _ _) as [vs|msg] eqn:E; simpl; [|discriminate].
    intros [= <-]; simpl.
    pose proof (mapM_length _ _ E) as Hlen.
    apply mapM_Forall2 in E.
    repeat split; auto. intros ->; reflexivity.
  - intros Hn Hall.
    unfold post_embed_batch, EmbedBatchRequest.valid.
    rewrite (proj2 (items_ok_iff _ _ _) Hn).
    unfold embed_batch, encode_batch.
    destruct (mapM _ _) as [vs|msg] eqn:E; simpl.
    + eexists; repeat split. simpl. intros ->.
      apply mapM_length in E. simpl in E. lia.
    + exfalso.
      assert (exists vs, mapM (forward model) (EmbedBatchRequest.texts request)
                         = Return vs) as [vs Hvs]; [|congruence].
      clear E Hn. induction (EmbedBatchRequest.texts request) as [|t l IH].
      * eexists; reflexivity.
      * destruct (Hall t) as [v Hv]; [simpl; auto|].
        destruct IH as [vs Hvs]; [intros; apply Hall; simpl; auto|].
        exists (v :: vs). simpl. unfold encode in Hv. rewrite Hv; simpl.
        rewrite Hvs; reflexivity.
  - intros Hnil.
    unfold post_embed_batch, EmbedBatchRequest.valid, embed_batch, encode_batch.
    rewrite Hnil. split; reflexivity.
Qed.

Lemma embed_batch_one_vector_per_text_witness :
  exists r,
    post_embed_batch "all-MiniLM-L6-v2" unit_model
                     {| EmbedBatchRequest.texts := ["cat"; "dog"; "car"] |}
    = HTTP200 r /\
    embed_batch "all-MiniLM-L6-v2" unit_model
                {| EmbedBatchRequest.texts := ["cat"; "dog"; "car"] |}
    = HTTP200 r /\
    EmbedBatchResponse.vectors r <> [].
Proof.
  apply (proj1 (proj2 (embed_batch_one_vector_per_text
                         "all-MiniLM-L6-v2" unit_model
                         {| EmbedBatchRequest.texts := ["cat"; "dog"; "car"] |}))).
  - simpl; lia.
  - intros t _. exists [1%R]. reflexivity.
Defined.

Lemma try_except_not_422 (A : Type) (c : result A) : try_except c <> HTTP422.
Proof. destruct c; discriminate. Qed.

(** C10: the batch routes check the number of items only.  Any list of 1 to
    100 texts reaches [embed_batch], and any list of 1 to 1000 candidates
    (with a valid query and [top_k]) reaches [find_similar], whatever the
    lengths of the items; the answer for a one-item batch is what the model
    makes of that item, of any length.  The single-text route answers 422 for
    the empty text. *)
Theorem batch_items_not_length_checked
        (MODEL_NAME : string) (model : SentenceTransformer)
        (argsort : list R -> list nat) :
  (forall texts,
      (1 <= Z.of_nat (length texts) <= 100)%Z ->
      post_embed_batch MODEL_NAME model {| EmbedBatchRequest.texts := texts |}
      = embed_batch MODEL_NAME model {| EmbedBatchRequest.texts := texts |} /\
      post_embed_batch MODEL_NAME model {| EmbedBatchRequest.texts := texts |}
      <> HTTP422) /\
  (forall body k,
      Pydantic.str_length_ok 1 10000 (SimilarityBatchBody.query body) = true ->
      (1 <= Z.of_nat (length (SimilarityBatchBody.candidates body)) <= 1000)%Z ->
      SimilarityBatchRequest.parse_top_k (SimilarityBatchBody.top_k body)
      = Some k ->
      post_similarity_batch model argsort body
      = find_similar model argsort
          {| SimilarityBatchRequest.query := SimilarityBatchBody.query body;
             SimilarityBatchRequest.candidates :=
               SimilarityBatchBody.candidates body;
             SimilarityBatchRequest.top_k := k |} /\
      post_similarity_batch model argsort body <> HTTP422) /\
  (forall t,
      post_embed_batch MODEL_NAME model {| EmbedBatchRequest.texts := [t] |}
      = match encode model t with
        | Return v =>
            HTTP200 {| EmbedBatchResponse.vectors := [v];
                       EmbedBatchResponse.count := 1;
                       EmbedBatchResponse.dimensions := length v;
                       EmbedBatchResponse.model := MODEL_NAME |}
        | Raise msg => HTTP500 msg
        end) /\
  post_embed MODEL_NAME model {| EmbedRequest.text := "" |} = HTTP422.
Proof.
  repeat split.
  - unfold post_embed_batch, EmbedBatchRequest.valid; simpl.
    rewrite (proj2 (items_ok_iff _ _ _) H). reflexivity.
  - unfold post_embed_batch, EmbedBatchRequest.valid; simpl.
    rewrite (proj2 (items_ok_iff _ _ _) H). apply try_except_not_422.
  - unfold post_similarity_batch, SimilarityBatchRequest.parse.
    rewrite H, (proj2 (items_ok_iff _ _ _) H0), H1. reflexivity.
  - unfold post_similarity_batch, SimilarityBatchRequest.parse.
    rewrite H, (proj2 (items_ok_iff _ _ _) H0), H1. apply try_except_not_422.
  - intros t. unfold post_embed_batch, embed_batch, encode_batch, encode; simpl.
    destruct (forward model t); reflexivity.
Qed.

Lemma batch_items_not_length_checked_witness :
  post_embed_batch "all-MiniLM-L6-v2" unit_model
    {| EmbedBatchRequest.texts := [""; text_of_length (Z.to_nat 10001)] |}
  = embed_batch "all-MiniLM-L6-v2" unit_model
      {| EmbedBatchRequest.texts := [""; text_of_length (Z.to_nat 10001)] |} /\
  post_embed_batch "all-MiniLM-L6-v2" unit_model
    {| EmbedBatchRequest.texts := [""; text_of_length (Z.to_nat 10001)] |}
  <> HTTP422.
Proof.
  apply (proj1 (batch_items_not_length_checked
                  "all-MiniLM-L6-v2" unit_model argsort_short)).
  cbn [length]. lia.
Defined.

(** ** The similarity endpoint *)






Lemma check_pairwise_arrays_swap (a b : Vector) :
  Sklearn.check_pairwise_arrays [a] [b] = Return tt ->
  Sklearn.check_pairwise_arrays [b] [a] = Return tt.
Proof.
  unfold Sklearn.check_pairwise_arrays, Sklearn.same_width; simpl.
  destruct (length a =? 0)%nat eqn:Ea; [discriminate|].
  rewrite Nat.eqb_refl; simpl. rewrite andb_true_r.
  destruct (length b =? length a)%nat eqn:Eb; [|discriminate].
  apply Nat.eqb_eq in Eb. rewrite Eb, Ea, !Nat.eqb_refl. reflexivity.
Qed.

(** C4: the score [/similarity] returns for [(t1, t2)] is the score it
    returns for [(t2, t1)]; when one request gets no score (a validation or
    a server error), neither does the other. *)
Theorem similarity_symmetric
        (model : SentenceTransformer) (t1 t2 : string) :
  score_of (post_similarity model
              {| SimilarityRequest.text1 := t1;
                 SimilarityRequest.text2 := t2 |})
  = score_of (post_similarity model
                {| SimilarityRequest.text1 := t2;
                   SimilarityRequest.text2 := t1 |}).
Proof.
  unfold post_similarity, SimilarityRequest.valid; simpl.
  rewrite (andb_comm (Pydantic.str_length_ok 1 10000 t2)).
  destruct (_ && _); [|reflexivity].
  unfold calculate_similarity, encode_batch; simpl.
  destruct (forward model t1) as [a|m1], (forward model t2) as [b|m2]; simpl;
    try reflexivity.
  unfold Sklearn.cosine_similarity.
  destruct (Sklearn.check_pairwise_arrays [a] [b]) as [[]|m] eqn:Eab.
  - rewrite (check_pairwise_arrays_swap _ _ Eab); simpl.
    rewrite dot_comm; reflexivity.
  - destruct (Sklearn.check_pairwise_arrays [b] [a]) as [[]|m'] eqn:Eba;
      [|reflexivity].
    rewrite (check_pairwise_arrays_swap _ _ Eba) in Eab; discriminate.
Qed.

(** ** The ranking endpoint *)

Lemma in_slice_to (A : Type) (k : option Z) (l : list A) (x : A) :
  In x (slice_to k l) -> In x l.
Proof.
  unfold slice_to. destruct k as [z|]; [|auto].
  destruct (0 <=? z)%Z; apply in_firstn.
Qed.

Lemma slice_to_firstn (A : Type) (k : option Z) (l : list A) :
  exists n, slice_to k l = firstn n l.
Proof.
  unfold slice_to. destruct k as [z|].
  - destruct (0 <=? z)%Z; eexists; reflexivity.
  - exists (length l). symmetry; apply firstn_all.
Qed.

Lemma length_slice_to (A : Type) (k : option Z) (l : list A) :
  match k with Some z => (1 <= z)%Z | None => True end ->
  length (slice_to k l) = limit k (length l).
Proof.
  unfold slice_to, limit. destruct k as [z|]; [|reflexivity].
  intros Hz. destruct (0 <=? z)%Z eqn:E; [apply length_firstn|lia].
Qed.

Lemma ranked_result_Return (candidates : list string) (similarities : list R)
      (i : nat) :
  i < length candidates -> i < length similarities ->
  ranked_result candidates similarities i
  = Return {| RankedResult.text := nth i candidates "";
              RankedResult.score := nth i similarities 0%R;
              RankedResult.index := i |}.
Proof.
  intros Hc Hs. unfold ranked_result, getitem.
  rewrite (nth_error_nth' candidates "" Hc); simpl.
  rewrite (nth_error_nth' similarities 0%R Hs); reflexivity.
Qed.

Lemma mapM_total (A B : Type) (f : A -> result B) (l : list A) :
  (forall a, In a l -> exists b, f a = Return b) ->
  exists bs, mapM f l = Return bs.
Proof.
  induction l as [|a l IH]; intros H; [eexists; reflexivity|].
  destruct (H a) as [b Hb]; [simpl; auto|].
  destruct IH as [bs Hbs]; [intros; apply H; simpl; auto|].
  exists (b :: bs); simpl. rewrite Hb; simpl. rewrite Hbs; reflexivity.
Qed.

Lemma parse_Some (body : SimilarityBatchBody.t)
      (request : SimilarityBatchRequest.t) :
  SimilarityBatchRequest.parse body = Some request ->
  SimilarityBatchRequest.query request = SimilarityBatchBody.query body /\
  SimilarityBatchRequest.candidates request
  = SimilarityBatchBody.candidates body /\
  (1 <= Z.of_nat (length (SimilarityBatchBody.candidates body)) <= 1000)%Z /\
  match SimilarityBatchBody.top_k body with
  | Pydantic.Absent => SimilarityBatchRequest.top_k request = Some 10%Z
  | Pydantic.Null => SimilarityBatchRequest.top_k request = None
  | Pydantic.Value z =>
      SimilarityBatchRequest.top_k request = Some z /\ (1 <= z <= 100)%Z
  end.
Proof.
  unfold SimilarityBatchRequest.parse.
  destruct (Pydantic.str_length_ok _ _ _); simpl; [|discriminate].
  destruct (Pydantic.items_ok _ _ _) eqn:Ei; [|discriminate].
  apply items_ok_iff in Ei.
  unfold SimilarityBatchRequest.parse_top_k, Pydantic.int_range_ok.
  destruct (SimilarityBatchBody.top_k body) as [| |z].
  - intros [= <-]; simpl; auto.
  - intros [= <-]; simpl; auto.
  - destruct ((1 <=? z)%Z && (z <=? 100)%Z) eqn:Ez; [|discriminate].
    intros [= <-]; simpl. repeat split; auto; lia.
Qed.

(** When the model embeds the query as [q] and the candidates as [cands],
    rows of one non-zero length, the handler answers 200 with the results of
    the indices [argsort] gives on the similarities, reversed and cut. *)
Lemma find_similar_eval (model : SentenceTransformer)
      (argsort : list R -> list nat) (request : SimilarityBatchRequest.t)
      (q : Vector) (cands : list Vector) :
  Numpy.argsort_spec argsort ->
  forward model (SimilarityBatchRequest.query request) = Return q ->
  mapM (forward model) (SimilarityBatchRequest.candidates request)
  = Return cands ->
  q <> [] -> cands <> [] -> Forall (fun y => length y = length q) cands ->
  find_similar model argsort request
  = HTTP200
      {| SimilarityBatchResponse.query := SimilarityBatchRequest.query request;
         SimilarityBatchResponse.results :=
           ranking (SimilarityBatchRequest.candidates request)
                   (map (Sklearn.dot (Sklearn.normalize_row q))
                        (Sklearn.normalize cands))
                   (slice_to (SimilarityBatchRequest.top_k request)
                             (rev (argsort
                                     (map (Sklearn.dot (Sklearn.normalize_row q))
                                          (Sklearn.normalize cands))))) |}.
Proof.
  intros Hspec Hq Hcands Hqne Hcne Hw.
  unfold find_similar, encode_batch. cbn [mapM]. rewrite Hq, Hcands.
  cbn [bind getitem nth_error].
  rewrite cosine_similarity_row by assumption.
  cbn [bind getitem nth_error].
  unfold ranking. rewrite (@mapM_map _ _ _
    (fun i => {| RankedResult.text :=
                   nth i (SimilarityBatchRequest.candidates request) "";
                 RankedResult.score :=
                   nth i (map (Sklearn.dot (Sklearn.normalize_row q))
                              (Sklearn.normalize cands)) 0%R;
                 RankedResult.index := i |})).
  - reflexivity.
  - intros i Hi. apply in_slice_to, in_rev in Hi.
    apply (Permutation_in _ (proj1 (Hspec _))), in_seq in Hi.
    unfold Sklearn.normalize in Hi. rewrite !length_map in Hi.
    pose proof (mapM_length _ _ Hcands) as Hlen.
    apply ranked_result_Return;
      [|unfold Sklearn.normalize; rewrite !length_map]; lia.
Qed.

(** A valid request on a model that embeds its texts is answered 200. *)
Lemma find_similar_returns (model : SentenceTransformer)
      (argsort : list R -> list nat) (request : SimilarityBatchRequest.t) :
  Numpy.argsort_spec argsort ->
  SimilarityBatchRequest.candidates request <> [] ->
  embeds_all model (SimilarityBatchRequest.query request
                    :: SimilarityBatchRequest.candidates request) ->
  exists similarities,
    length similarities = length (SimilarityBatchRequest.candidates request) /\
    find_similar model argsort request
    = HTTP200
        {| SimilarityBatchResponse.query :=
             SimilarityBatchRequest.query request;
           SimilarityBatchResponse.results :=
             ranking (SimilarityBatchRequest.candidates request) similarities
                     (slice_to (SimilarityBatchRequest.top_k request)
                               (rev (argsort similarities))) |}.
Proof.
  intros Hspec Hne (n & Hn & Hall).
  destruct (Hall (SimilarityBatchRequest.query request)) as (q & Hq & Hlq);
    [simpl; auto|].
  destruct (@mapM_total _ _ (forward model)
              (SimilarityBatchRequest.candidates request)) as [cands Hcands].
  { intros t Ht. destruct (Hall t) as (v & Hv & _); [simpl; auto|eauto]. }
  assert (Forall (fun y => length y = length q) cands) as Hw.
  { rewrite Hlq. pose proof (proj1 (mapM_Forall2 _ _ _) Hcands) as HF.
    assert (forall t, In t (SimilarityBatchRequest.candidates request) ->
                      exists v, forward model t = Return v /\ length v = n)
      as Hall' by (intros; apply Hall; simpl; auto).
    clear Hall Hne Hq Hcands. induction HF as [|t v l vs Htv _ IH]; constructor.
    - destruct (Hall' t) as (v' & Hv' & Hlv'); [simpl; auto|]. congruence.
    - apply IH. intros; apply Hall'; simpl; auto. }
  exists (map (Sklearn.dot (Sklearn.normalize_row q)) (Sklearn.normalize cands)).
  split.
  - unfold Sklearn.normalize. rewrite !length_map.
    apply (mapM_length _ _ Hcands).
  - apply find_similar_eval; auto.
    + destruct q; [simpl in *; lia|discriminate].
    + intros ->. apply mapM_length in Hcands.
      destruct (SimilarityBatchRequest.candidates request);
        [contradiction|discriminate].
Qed.

Lemma map_index_ranking (candidates : list string) (similarities : list R)
      (indices : list nat) :
  map RankedResult.index (ranking candidates similarities indices) = indices.
Proof.
  unfold ranking. rewrite map_map; simpl. apply map_id.
Qed.

Lemma nth_error_ranking (candidates : list string) (similarities : list R)
      (indices : list nat) (p : nat) (r : RankedResult.t) :
  nth_error (ranking candidates similarities indices) p = Some r ->
  nth_error indices p = Some (RankedResult.index r) /\
  RankedResult.score r = nth (RankedResult.index r) similarities 0%R /\
  RankedResult.text r = nth (RankedResult.index r) candidates "".
Proof.
  unfold ranking. rewrite nth_error_map.
  destruct (nth_error indices p) as [i|]; simpl; [|discriminate].
  intros [= <-]; simpl; auto.
Qed.

(** The indices of the results: reversed argsort, cut by [top_k]. *)
Section RankedIndices.

Variable argsort : list R -> list nat.
Hypothesis argsort_ok : Numpy.argsort_spec argsort.
Variable similarities : list R.
Variable top_k : option Z.

Local Abbreviation indices := (slice_to top_k (rev (argsort similarities))).

Lemma ranked_indices_NoDup : NoDup indices.
Proof.
  destruct (slice_to_firstn top_k (rev (argsort similarities))) as [n ->].
  apply NoDup_firstn, NoDup_rev.
  eapply Permutation_NoDup;
    [symmetry; apply (proj1 (argsort_ok similarities))|apply seq_NoDup].
Qed.

Lemma ranked_indices_in_range (i : nat) :
  In i indices -> i < length similarities.
Proof.
  intros Hi. apply in_slice_to, in_rev in Hi.
  apply (Permutation_in _ (proj1 (argsort_ok similarities))), in_seq in Hi. lia.
Qed.

Lemma ranked_indices_sorted :
  StronglySorted
    (fun i j => (nth j similarities 0 <= nth i similarities 0)%R) indices.
Proof.
  destruct (slice_to_firstn top_k (rev (argsort similarities))) as [n ->].
  apply StronglySorted_firstn.
  apply (StronglySorted_rev (proj2 (argsort_ok similarities))).
Qed.

Lemma ranked_indices_length :
  match top_k with Some z => (1 <= z)%Z | None => True end ->
  length indices = limit top_k (length similarities).
Proof.
  intros Hk. rewrite length_slice_to by exact Hk.
  rewrite length_rev.
  rewrite (Permutation_length (proj1 (argsort_ok similarities))), length_seq.
  reflexivity.
Qed.

Lemma ranked_indices_all :
  length similarities <= limit top_k (length similarities) ->
  Permutation indices (seq 0 (length similarities)).
Proof.
  intros Hk.
  assert (length (rev (argsort similarities)) = length similarities) as Hl.
  { rewrite length_rev,
      (Permutation_length (proj1 (argsort_ok similarities))), length_seq.
    reflexivity. }
  assert (indices = rev (argsort similarities)) as ->.
  { unfold slice_to, limit in *. destruct top_k as [z|]; [|reflexivity].
    destruct (0 <=? z)%Z eqn:E.
    - apply firstn_all2. lia.
    - assert (Z.to_nat z = 0) by lia. rewrite H in Hk.
      destruct (rev (argsort similarities)); [reflexivity|simpl in *; lia]. }
  rewrite <- Permutation_rev. apply (proj1 (argsort_ok similarities)).
Qed.

End RankedIndices.

Lemma parse_top_k_positive (body : SimilarityBatchBody.t)
      (request : SimilarityBatchRequest.t) :
  SimilarityBatchRequest.parse body = Some request ->
  match SimilarityBatchRequest.top_k request with
  | Some z => (1 <= z)%Z
  | None => True
  end.
Proof.
  intros H. apply parse_Some in H as (_ & _ & _ & H).
  destruct (SimilarityBatchBody.top_k body);
    [rewrite H; lia|rewrite H; exact I|destruct H as [-> H]; lia].
Qed.

Lemma parse_candidates_nonempty (body : SimilarityBatchBody.t)
      (request : SimilarityBatchRequest.t) :
  SimilarityBatchRequest.parse body = Some request ->
  SimilarityBatchRequest.candidates request <> [].
Proof.
  intros H. apply parse_Some in H as (_ & -> & H & _).
  intros E; rewrite E in H; simpl in H; lia.
Qed.

(** C2: a valid ranking request on a model that embeds its texts is answered
    200 with a list of results of length [min(top_k, len(candidates))] (all
    of them when [top_k] is [None]); the scores do not increase along the
    list; every index is below [len(candidates)] and is the position of the
    result's text among the candidates; no index occurs twice; and when
    [top_k] is at least the number of candidates, every candidate is
    returned. *)
Theorem ranking_results
        (model : SentenceTransformer) (argsort : list R -> list nat)
        (body : SimilarityBatchBody.t) (request : SimilarityBatchRequest.t) :
  Numpy.argsort_spec argsort ->
  SimilarityBatchRequest.parse body = Some request ->
  embeds_all model (SimilarityBatchRequest.query request
                    :: SimilarityBatchRequest.candidates request) ->
  exists results,
    post_similarity_batch model argsort body
    = HTTP200 {| SimilarityBatchResponse.query :=
                   SimilarityBatchRequest.query request;
                 SimilarityBatchResponse.results := results |} /\
    length results
    = limit (SimilarityBatchRequest.top_k request)
            (length (SimilarityBatchRequest.candidates request)) /\
    StronglySorted
      (fun r1 r2 => (RankedResult.score r2 <= RankedResult.score r1)%R)
      results /\
    Forall (fun r =>
              RankedResult.index r
              < length (SimilarityBatchRequest.candidates request) /\
              nth_error (SimilarityBatchRequest.candidates request)
                        (RankedResult.index r)
              = Some (RankedResult.text r)) results /\
    NoDup (map RankedResult.index results) /\
    (length (SimilarityBatchRequest.candidates request)
     <= limit (SimilarityBatchRequest.top_k request)
              (length (SimilarityBatchRequest.candidates request)) ->
     Permutation (map RankedResult.index results)
                 (seq 0 (length (SimilarityBatchRequest.candidates request)))).
Proof.
  intros Hspec Hparse Hall.
  destruct (@find_similar_returns model argsort request Hspec
              (parse_candidates_nonempty _ Hparse) Hall)
    as (sims & Hlen & Hret).
  eexists. split; [unfold post_similarity_batch; rewrite Hparse; exact Hret|].
  repeat split.
  - unfold ranking. rewrite length_map, <- Hlen.
    apply ranked_indices_length;
      [exact Hspec|exact (parse_top_k_positive _ Hparse)].
  - unfold ranking. apply StronglySorted_map; simpl.
    apply ranked_indices_sorted; exact Hspec.
  - apply Forall_forall. intros r Hr.
    apply in_map_iff in Hr as (i & <- & Hi); simpl.
    apply (ranked_indices_in_range Hspec) in Hi. rewrite Hlen in Hi.
    split; [exact Hi|apply nth_error_nth'; exact Hi].
  - rewrite map_index_ranking. apply ranked_indices_NoDup; exact Hspec.
  - intros Hk. rewrite map_index_ranking, <- Hlen in *.
    apply ranked_indices_all; assumption.
Qed.

Lemma unit_model_embeds_all (texts : list string) : embeds_all unit_model texts.
Proof.
  exists 1; split; [lia|]. intros t _. exists [1%R]; split; reflexivity.
Qed.

Lemma ranking_results_witness :
  exists results,
    post_similarity_batch unit_model argsort_short
      {| SimilarityBatchBody.query := "kitten";
         SimilarityBatchBody.candidates := ["cat"; "dog"; "car"];
         SimilarityBatchBody.top_k := Pydantic.Value 2%Z |}
    = HTTP200 {| SimilarityBatchResponse.query := "kitten";
                 SimilarityBatchResponse.results := results |} /\
    length results = 2 /\
    StronglySorted
      (fun r1 r2 => (RankedResult.score r2 <= RankedResult.score r1)%R)
      results /\
    Forall (fun r =>
              RankedResult.index r < 3 /\
              nth_error ["cat"; "dog"; "car"] (RankedResult.index r)
              = Some (RankedResult.text r)) results /\
    NoDup (map RankedResult.index results) /\
    (3 <= 2 -> Permutation (map RankedResult.index results) [0; 1; 2]).
Proof.
  apply (@ranking_results unit_model argsort_short
           {| SimilarityBatchBody.query := "kitten";
              SimilarityBatchBody.candidates := ["cat"; "dog"; "car"];
              SimilarityBatchBody.top_k := Pydantic.Value 2%Z |}
           {| SimilarityBatchRequest.query := "kitten";
              SimilarityBatchRequest.candidates := ["cat"; "dog"; "car"];
              SimilarityBatchRequest.top_k := Some 2%Z |}).
  - exact argsort_short_spec.
  - reflexivity.
  - apply unit_model_embeds_all.
Defined.



(** On two equal values the insertion sort keeps the order of the indices. *)
Lemma argsort_short_pair (c : R) : argsort_short [c; c] = [0; 1].
Proof.
  unfold argsort_short, Numpy.argsort_insertion, Numpy.insertion_pass.
  cbn [length seq fold_left Numpy.insert_left Numpy.at_ nth].
  rewrite (proj2 (Rltb_false c c)) by lra. reflexivity.
Qed.

(** C1, as stated, fails: two equal candidates get equal scores; an argsort
    that lists the two equal values in index order gives [[0, 1]], and the
    reversal lists index 1 before index 0. *)
Lemma ties_by_index_ascending_counterexample :
  exists results,
    post_similarity_batch unit_model argsort_short
      {| SimilarityBatchBody.query := "kitten";
         SimilarityBatchBody.candidates := ["cat"; "cat"];
         SimilarityBatchBody.top_k := Pydantic.Absent |}
    = HTTP200 {| SimilarityBatchResponse.query := "kitten";
                 SimilarityBatchResponse.results := results |} /\
    map RankedResult.index results = [1; 0] /\
    ~ ties_by_index_ascending results.
Proof.
  unfold post_similarity_batch.
  change (SimilarityBatchRequest.parse _)
    with (Some {| SimilarityBatchRequest.query := "kitten";
                  SimilarityBatchRequest.candidates := ["cat"; "cat"];
                  SimilarityBatchRequest.top_k := Some 10%Z |}).
  cbv beta iota.
  rewrite (@find_similar_eval unit_model argsort_short
             {| SimilarityBatchRequest.query := "kitten";
                SimilarityBatchRequest.candidates := ["cat"; "cat"];
                SimilarityBatchRequest.top_k := Some 10%Z |}
             [1%R] [[1%R]; [1%R]] argsort_short_spec eq_refl eq_refl);
    [|discriminate|discriminate|repeat constructor].
  cbn [map Sklearn.normalize SimilarityBatchRequest.query
       SimilarityBatchRequest.candidates SimilarityBatchRequest.top_k].
  set (c := Sklearn.dot (Sklearn.normalize_row [1%R])
                        (Sklearn.normalize_row [1%R])).
  rewrite argsort_short_pair.
  eexists. split; [reflexivity|]. split; [reflexivity|].
  intros H.
  specialize (H 1 0
                {| RankedResult.text := "cat"; RankedResult.score := c;
                   RankedResult.index := 0 |}
                {| RankedResult.text := "cat"; RankedResult.score := c;
                   RankedResult.index := 1 |}
                eq_refl eq_refl eq_refl).
  simpl in H. lia.
Qed.

Lemma nth_error_rev_Some (A : Type) (l : list A) (p : nat) (x : A) :
  nth_error (rev l) p = Some x ->
  p < length l /\ nth_error l (length l - S p) = Some x.
Proof.
  rewrite nth_error_rev.
  destruct (Nat.ltb_spec p (length l)); [auto|discriminate].
Qed.

Lemma nth_error_slice_to (A : Type) (k : option Z) (l : list A) (p : nat)
      (x : A) :
  nth_error (slice_to k l) p = Some x -> nth_error l p = Some x.
Proof.
  destruct (slice_to_firstn k l) as [n ->]. rewrite nth_error_firstn.
  destruct (p <? n)%nat; [auto|discriminate].
Qed.

(** C1, amended: a valid ranking request on a model that embeds its texts is
    answered 200, and two results with equal scores stand in the reverse of
    the order in which [np.argsort] lists their indices: the one comes
    before the other in the results exactly when [np.argsort] lists its
    index after the other's.  Which of two equal scores [np.argsort] lists
    first is not part of its contract. *)
Theorem ranking_ties_follow_argsort
        (model : SentenceTransformer) (argsort : list R -> list nat)
        (body : SimilarityBatchBody.t) (request : SimilarityBatchRequest.t)
        (q : Vector) (cands : list Vector) :
  Numpy.argsort_spec argsort ->
  SimilarityBatchRequest.parse body = Some request ->
  embedded model request q cands ->
  exists results,
    post_similarity_batch model argsort body
    = HTTP200 {| SimilarityBatchResponse.query :=
                   SimilarityBatchRequest.query request;
                 SimilarityBatchResponse.results := results |} /\
    forall p p' r1 r2,
      nth_error results p = Some r1 -> nth_error results p' = Some r2 ->
      RankedResult.score r1 = RankedResult.score r2 ->
      (p < p' <->
       listed_before (argsort (map (cosine q) cands))
                     (RankedResult.index r2) (RankedResult.index r1)).
Proof.
  intros Hspec Hparse Hemb.
  assert (find_similar model argsort request
          = HTTP200
              {| SimilarityBatchResponse.query :=
                   SimilarityBatchRequest.query request;
                 SimilarityBatchResponse.results :=
                   ranking (SimilarityBatchRequest.candidates request)
                           (map (cosine q) cands)
                           (slice_to (SimilarityBatchRequest.top_k request)
                                     (rev (argsort (map (cosine q) cands)))) |})
    as Hret.
  { destruct Hemb as (Hq & Hcands & Hqne & Hw).
    unfold cosine. rewrite <- (map_map Sklearn.normalize_row).
    apply find_similar_eval; auto.
    intros ->. apply mapM_length in Hcands.
    pose proof (parse_candidates_nonempty _ Hparse) as Hne.
    destruct (SimilarityBatchRequest.candidates request);
      [contradiction|discriminate]. }
  eexists. split; [unfold post_similarity_batch; rewrite Hparse; exact Hret|].
  set (L := argsort (map (cosine q) cands)).
  assert (NoDup L) as Hnd.
  { eapply Permutation_NoDup;
      [symmetry; apply (proj1 (Hspec _))|apply seq_NoDup]. }
  intros p p' r1 r2 Hp Hp' _.
  apply nth_error_ranking in Hp as (Hp & _).
  apply nth_error_ranking in Hp' as (Hp' & _).
  apply nth_error_slice_to, nth_error_rev_Some in Hp as (Hlp & Hp).
  apply nth_error_slice_to, nth_error_rev_Some in Hp' as (Hlp' & Hp').
  fold L in Hp, Hp', Hlp, Hlp'.
  split.
  - intros Hlt. exists (length L - S p'), (length L - S p).
    repeat split; [lia|exact Hp'|exact Hp].
  - intros (a & b & Hab & Ha & Hb).
    assert (length L - S p' = a) as Ea.
    { apply (proj1 (NoDup_nth_error L) Hnd); [lia|congruence]. }
    assert (length L - S p = b) as Eb.
    { apply (proj1 (NoDup_nth_error L) Hnd); [lia|congruence]. }
    lia.
Qed.

Lemma ranking_ties_follow_argsort_witness :
  exists results,
    post_similarity_batch unit_model argsort_short
      {| SimilarityBatchBody.query := "kitten";
         SimilarityBatchBody.candidates := ["cat"; "cat"];
         SimilarityBatchBody.top_k := Pydantic.Absent |}
    = HTTP200 {| SimilarityBatchResponse.query := "kitten";
                 SimilarityBatchResponse.results := results |} /\
    forall p p' r1 r2,
      nth_error results p = Some r1 -> nth_error results p' = Some r2 ->
      RankedResult.score r1 = RankedResult.score r2 ->
      (p < p' <->
       listed_before (argsort_short (map (cosine [1%R]) [[1%R]; [1%R]]))
                     (RankedResult.index r2) (RankedResult.index r1)).
Proof.
  apply (@ranking_ties_follow_argsort unit_model argsort_short
           {| SimilarityBatchBody.query := "kitten";
              SimilarityBatchBody.candidates := ["cat"; "cat"];
              SimilarityBatchBody.top_k := Pydantic.Absent |}
           {| SimilarityBatchRequest.query := "kitten";
              SimilarityBatchRequest.candidates := ["cat"; "cat"];
              SimilarityBatchRequest.top_k := Some 10%Z |}
           [1%R] [[1%R]; [1%R]]).
  - exact argsort_short_spec.
  - reflexivity.
  - repeat split; try discriminate. repeat constructor.
Defined.

(** * Further properties of the handlers *)

(** ** Cosines of a query *)

Section CosineRows.

Import Sklearn.
Local Open Scope R_scope.

Lemma dot_nil_r (x : Vector) : dot x [] = 0.
Proof. destruct x; reflexivity. Qed.

Lemma cosine_comm (a b : Vector) : cosine a b = cosine b a.
Proof. unfold cosine; apply dot_comm. Qed.

Lemma nth_cosines (q : Vector) (cands : list Vector) (j : nat) :
  nth j (map (cosine q) cands) 0 = cosine q (nth j cands []).
Proof.
  replace 0 with (cosine q []) at 1.
  - apply map_nth.
  - unfold cosine, normalize_row at 2; simpl. apply dot_nil_r.
Qed.

Lemma kernel_row_cosines (q : Vector) (cands : list Vector) :
  map (dot (normalize_row q)) (normalize cands) = map (cosine q) cands.
Proof. unfold normalize, cosine. apply map_map. Qed.

End CosineRows.

(** ** More on the ranking endpoint *)

Lemma StronglySorted_app_inv (A : Type) (rel : A -> A -> Prop)
      (l1 l2 : list A) (x y : A) :
  StronglySorted rel (l1 ++ l2) -> In x l1 -> In y l2 -> rel x y.
Proof.
  induction l1 as [|a l1 IH]; simpl; intros Hs Hx Hy; [contradiction|].
  apply StronglySorted_inv in Hs as [Hs Ha].
  destruct Hx as [<-|Hx]; [|apply IH; assumption].
  rewrite Forall_forall in Ha. apply Ha, in_or_app; auto.
Qed.

Lemma parse_query_in_bounds (body : SimilarityBatchBody.t)
      (request : SimilarityBatchRequest.t) :
  SimilarityBatchRequest.parse body = Some request ->
  Pydantic.str_length_ok 1 10000 (SimilarityBatchRequest.query request) = true.
Proof.
  unfold SimilarityBatchRequest.parse.
  destruct (Pydantic.str_length_ok 1 10000 (SimilarityBatchBody.query body))
    eqn:E; simpl; [|discriminate].
  destruct (Pydantic.items_ok _ _ _); [|discriminate].
  destruct (SimilarityBatchRequest.parse_top_k _); [|discriminate].
  intros [= <-]; exact E.
Qed.

(** The answer to a request whose texts the model embeds, with the
    similarities written as cosines. *)
Lemma find_similar_cosines (model : SentenceTransformer)
      (argsort : list R -> list nat) (request : SimilarityBatchRequest.t)
      (q : Vector) (cands : list Vector) :
  Numpy.argsort_spec argsort ->
  SimilarityBatchRequest.candidates request <> [] ->
  embedded model request q cands ->
  find_similar model argsort request
  = HTTP200
      {| SimilarityBatchResponse.query := SimilarityBatchRequest.query request;
         SimilarityBatchResponse.results :=
           ranking (SimilarityBatchRequest.candidates request)
                   (map (cosine q) cands)
                   (slice_to (SimilarityBatchRequest.top_k request)
                             (rev (argsort (map (cosine q) cands)))) |}.
Proof.
  intros Hspec Hne (Hq & Hcands & Hqne & Hw).
  rewrite <- kernel_row_cosines.
  apply find_similar_eval; auto.
  intros ->. apply mapM_length in Hcands.
  destruct (SimilarityBatchRequest.candidates request);
    [contradiction|discriminate].
Qed.

(** X3: the results are the top of the whole list of candidates: the score
    of a result is the cosine of the query and that candidate, and no
    candidate left out has a larger cosine than a result. *)
Theorem ranking_returns_the_top
        (model : SentenceTransformer) (argsort : list R -> list nat)
        (body : SimilarityBatchBody.t) (request : SimilarityBatchRequest.t)
        (q : Vector) (cands : list Vector) :
  Numpy.argsort_spec argsort ->
  SimilarityBatchRequest.parse body = Some request ->
  embedded model request q cands ->
  exists results,
    post_similarity_batch model argsort body
    = HTTP200 {| SimilarityBatchResponse.query :=
                   SimilarityBatchRequest.query request;
                 SimilarityBatchResponse.results := results |} /\
    Forall (fun r => RankedResult.score r
                     = cosine q (nth (RankedResult.index r) cands []))
           results /\
    (forall r j,
        In r results ->
        j < length (SimilarityBatchRequest.candidates request) ->
        ~ In j (map RankedResult.index results) ->
        (cosine q (nth j cands []) <= RankedResult.score r)%R).
Proof.
  intros Hspec Hparse Hemb.
  pose proof (find_similar_cosines Hspec (parse_candidates_nonempty _ Hparse)
                                   Hemb) as Hret.
  eexists. split; [unfold post_similarity_batch; rewrite Hparse; exact Hret|].
  set (sims := map (cosine q) cands) in *.
  assert (length sims = length (SimilarityBatchRequest.candidates request))
    as Hlen.
  { unfold sims. rewrite length_map.
    destruct Hemb as (_ & Hc & _). apply (mapM_length _ _ Hc). }
  split.
  - apply Forall_forall. intros r Hr.
    apply in_map_iff in Hr as (i & <- & _); simpl. apply nth_cosines.
  - intros r j Hr Hj Hout. rewrite map_index_ranking in Hout.
    apply in_map_iff in Hr as (i & <- & Hi); simpl.
    rewrite <- nth_cosines. fold sims.
    destruct (slice_to_firstn (SimilarityBatchRequest.top_k request)
                              (rev (argsort sims))) as [n Hn].
    rewrite Hn in Hi, Hout.
    assert (In j (skipn n (rev (argsort sims)))) as Hskip.
    { assert (In j (rev (argsort sims))) as Hin.
      { apply -> in_rev.
        apply (Permutation_in _ (Permutation_sym (proj1 (Hspec sims)))).
        apply in_seq. lia. }
      rewrite <- (firstn_skipn n) in Hin.
      apply in_app_or in Hin as [Hin|Hin]; [contradiction|exact Hin]. }
    pose proof (StronglySorted_rev (proj2 (Hspec sims))) as Hsorted.
    rewrite <- (firstn_skipn n) in Hsorted.
    exact (StronglySorted_app_inv _ _ _ _ Hsorted Hi Hskip).
Qed.

Lemma unit_model_embedded (request : SimilarityBatchRequest.t) :
  embedded unit_model request [1%R]
           (map (fun _ => [1%R]) (SimilarityBatchRequest.candidates request)).
Proof.
  repeat split; try discriminate.
  - apply mapM_map. reflexivity.
  - apply Forall_map, Forall_forall. reflexivity.
Qed.

Lemma ranking_returns_the_top_witness :
  exists results,
    post_similarity_batch unit_model argsort_short
      {| SimilarityBatchBody.query := "kitten";
         SimilarityBatchBody.candidates := ["cat"; "dog"; "car"];
         SimilarityBatchBody.top_k := Pydantic.Value 2%Z |}
    = HTTP200 {| SimilarityBatchResponse.query := "kitten";
                 SimilarityBatchResponse.results := results |} /\
    Forall (fun r => RankedResult.score r
                     = cosine [1%R] (nth (RankedResult.index r)
                                         [[1%R]; [1%R]; [1%R]] []))
           results /\
    (forall r j,
        In r results -> j < 3 ->
        ~ In j (map RankedResult.index results) ->
        (cosine [1%R] (nth j [[1%R]; [1%R]; [1%R]] [])
         <= RankedResult.score r)%R).
Proof.
  apply (@ranking_returns_the_top unit_model argsort_short
           {| SimilarityBatchBody.query := "kitten";
              SimilarityBatchBody.candidates := ["cat"; "dog"; "car"];
              SimilarityBatchBody.top_k := Pydantic.Value 2%Z |}
           {| SimilarityBatchRequest.query := "kitten";
              SimilarityBatchRequest.candidates := ["cat"; "dog"; "car"];
              SimilarityBatchRequest.top_k := Some 2%Z |}
           [1%R] [[1%R]; [1%R]; [1%R]]).
  - exact argsort_short_spec.
  - reflexivity.
  - exact (unit_model_embedded
             {| SimilarityBatchRequest.query := "kitten";
                SimilarityBatchRequest.candidates := ["cat"; "dog"; "car"];
                SimilarityBatchRequest.top_k := Some 2%Z |}).
Defined.

(** X5: asking for the top [k] gives the first [k] of the results that a
    [null] [top_k] gives for the same query and candidates. *)
Theorem top_k_results_are_a_prefix
        (model : SentenceTransformer) (argsort : list R -> list nat)
        (body : SimilarityBatchBody.t) (request : SimilarityBatchRequest.t)
        (k : Z) (q : Vector) (cands : list Vector) :
  Numpy.argsort_spec argsort ->
  SimilarityBatchRequest.parse body = Some request ->
  SimilarityBatchBody.top_k body = Pydantic.Null ->
  (1 <= k <= 100)%Z ->
  embedded model request q cands ->
  exists results,
    post_similarity_batch model argsort body
    = HTTP200 {| SimilarityBatchResponse.query :=
                   SimilarityBatchBody.query body;
                 SimilarityBatchResponse.results := results |} /\
    post_similarity_batch model argsort
      {| SimilarityBatchBody.query := SimilarityBatchBody.query body;
         SimilarityBatchBody.candidates := SimilarityBatchBody.candidates body;
         SimilarityBatchBody.top_k := Pydantic.Value k |}
    = HTTP200 {| SimilarityBatchResponse.query :=
                   SimilarityBatchBody.query body;
                 SimilarityBatchResponse.results :=
                   firstn (Z.to_nat k) results |}.
Proof.
  intros Hspec Hparse Hnull Hk Hemb.
  pose proof (parse_candidates_nonempty _ Hparse) as Hne.
  pose proof (parse_query_in_bounds _ Hparse) as Hqb.
  destruct (parse_Some _ Hparse) as (Hq & Hc & Hn & Htop).
  rewrite Hnull in Htop.
  eexists; split.
  - unfold post_similarity_batch. rewrite Hparse.
    rewrite (find_similar_cosines Hspec Hne Hemb), Htop, Hq. reflexivity.
  - unfold post_similarity_batch, SimilarityBatchRequest.parse,
      SimilarityBatchRequest.parse_top_k, Pydantic.int_range_ok.
    cbn [SimilarityBatchBody.query SimilarityBatchBody.candidates
         SimilarityBatchBody.top_k].
    rewrite <- Hq, Hqb, (proj2 (items_ok_iff _ _ _) Hn).
    replace ((1 <=? k)%Z && (k <=? 100)%Z) with true by lia.
    cbn [andb].
    rewrite (@find_similar_cosines model argsort _ q cands Hspec);
      [|simpl; rewrite <- Hc; exact Hne
       |destruct Hemb as (H1 & H2 & H3 & H4); repeat split; simpl;
        rewrite <- ?Hc; assumption].
    cbn [SimilarityBatchRequest.query SimilarityBatchRequest.candidates
         SimilarityBatchRequest.top_k slice_to].
    replace (0 <=? k)%Z with true by lia.
    unfold ranking. rewrite firstn_map, <- Hc. reflexivity.
Qed.

Lemma top_k_results_are_a_prefix_witness :
  exists results,
    post_similarity_batch unit_model argsort_short
      {| SimilarityBatchBody.query := "kitten";
         SimilarityBatchBody.candidates := ["cat"; "dog"; "car"];
         SimilarityBatchBody.top_k := Pydantic.Null |}
    = HTTP200 {| SimilarityBatchResponse.query := "kitten";
                 SimilarityBatchResponse.results := results |} /\
    post_similarity_batch unit_model argsort_short
      {| SimilarityBatchBody.query := "kitten";
         SimilarityBatchBody.candidates := ["cat"; "dog"; "car"];
         SimilarityBatchBody.top_k := Pydantic.Value 2%Z |}
    = HTTP200 {| SimilarityBatchResponse.query := "kitten";
                 SimilarityBatchResponse.results := firstn 2 results |}.
Proof.
  apply (@top_k_results_are_a_prefix unit_model argsort_short
           {| SimilarityBatchBody.query := "kitten";
              SimilarityBatchBody.candidates := ["cat"; "dog"; "car"];
              SimilarityBatchBody.top_k := Pydantic.Null |}
           {| SimilarityBatchRequest.query := "kitten";
              SimilarityBatchRequest.candidates := ["cat"; "dog"; "car"];
              SimilarityBatchRequest.top_k := None |}
           2%Z [1%R] [[1%R]; [1%R]; [1%R]]).
  - exact argsort_short_spec.
  - reflexivity.
  - reflexivity.
  - lia.
  - exact (unit_model_embedded
             {| SimilarityBatchRequest.query := "kitten";
                SimilarityBatchRequest.candidates := ["cat"; "dog"; "car"];
                SimilarityBatchRequest.top_k := None |}).
Defined.

(** Two lists sorted for a relation that is antisymmetric on their elements
    are equal as soon as they are permutations of each other. *)
Lemma sorted_permutation_unique (A : Type) (rel : A -> A -> Prop)
      (l1 l2 : list A) :
  (forall x y, In x l1 -> In y l1 -> rel x y -> rel y x -> x = y) ->
  StronglySorted rel l1 -> StronglySorted rel l2 -> Permutation l1 l2 ->
  l1 = l2.
Proof.
  revert l2; induction l1 as [|a l1 IH]; intros l2 Hanti H1 H2 Hp.
  - symmetry; apply Permutation_nil; exact Hp.
  - destruct l2 as [|b l2];
      [apply Permutation_sym, Permutation_nil in Hp; discriminate|].
    apply StronglySorted_inv in H1 as [H1 Ha].
    apply StronglySorted_inv in H2 as [H2 Hb].
    rewrite Forall_forall in Ha, Hb.
    assert (a = b) as ->.
    { assert (In a (b :: l2)) as Hab
          by (apply (Permutation_in _ Hp); simpl; auto).
      assert (In b (a :: l1)) as Hba
          by (apply (Permutation_in _ (Permutation_sym Hp)); simpl; auto).
      destruct Hab as [->|Hab]; [reflexivity|].
      destruct Hba as [->|Hba]; [reflexivity|].
      apply Hanti; simpl; auto. }
    f_equal. apply IH; auto.
    + intros x y Hx Hy; apply Hanti; simpl; auto.
    + eapply Permutation_cons_inv; exact Hp.
Qed.

(** On pairwise distinct values the contract of argsort leaves one answer. *)
Lemma argsort_unique (a1 a2 : list R -> list nat) (v : list R) :
  Numpy.argsort_spec a1 -> Numpy.argsort_spec a2 -> NoDup v -> a1 v = a2 v.
Proof.
  intros [Hp1 Hs1]%(fun H => H v) [Hp2 Hs2]%(fun H => H v) Hnd.
  eapply sorted_permutation_unique; [|exact Hs1|exact Hs2|].
  - intros i j Hi Hj Hij Hji.
    apply (Permutation_in _ Hp1), in_seq in Hi.
    apply (Permutation_in _ Hp1), in_seq in Hj.
    apply (proj1 (NoDup_nth v 0%R) Hnd); [lia|lia|lra].
  - rewrite Hp1, Hp2. reflexivity.
Qed.

(** X6: when the candidates' cosines with the query are pairwise distinct,
    the answer does not depend on which argsort is used: any two that meet
    the contract give the same response. *)
Theorem ranking_independent_of_sort_kind
        (model : SentenceTransformer) (argsort1 argsort2 : list R -> list nat)
        (body : SimilarityBatchBody.t) (request : SimilarityBatchRequest.t)
        (q : Vector) (cands : list Vector) :
  Numpy.argsort_spec argsort1 ->
  Numpy.argsort_spec argsort2 ->
  SimilarityBatchRequest.parse body = Some request ->
  embedded model request q cands ->
  NoDup (map (cosine q) cands) ->
  post_similarity_batch model argsort1 body
  = post_similarity_batch model argsort2 body.
Proof.
  intros H1 H2 Hparse Hemb Hnd.
  pose proof (parse_candidates_nonempty _ Hparse) as Hne.
  unfold post_similarity_batch. rewrite Hparse.
  rewrite (find_similar_cosines H1 Hne Hemb),
    (find_similar_cosines H2 Hne Hemb).
  rewrite (argsort_unique H1 H2 Hnd). reflexivity.
Qed.

Lemma axis_cosines :
  map (cosine [1%R; 0%R]) [[1%R; 0%R]; [0%R; 1%R]] = [1%R; 0%R].
Proof.
  cbn [map]. f_equal; [|f_equal].
  - apply cosine_self.
    unfold Sklearn.row_norm, Sklearn.dot; simpl.
    replace (1 * 1 + (0 * 0 + 0))%R with 1%R by ring. rewrite sqrt_1.
    unfold Sklearn.eps. lra.
  - unfold cosine, Sklearn.normalize_row, Sklearn.dot; simpl.
    unfold Rdiv; ring.
Qed.

Lemma ranking_independent_of_sort_kind_witness :
  post_similarity_batch axis_model argsort_short
    {| SimilarityBatchBody.query := "kitten";
       SimilarityBatchBody.candidates := ["cat"; "dog"];
       SimilarityBatchBody.top_k := Pydantic.Absent |}
  = post_similarity_batch axis_model argsort_anti
      {| SimilarityBatchBody.query := "kitten";
         SimilarityBatchBody.candidates := ["cat"; "dog"];
         SimilarityBatchBody.top_k := Pydantic.Absent |}.
Proof.
  apply (@ranking_independent_of_sort_kind axis_model
           argsort_short argsort_anti
           {| SimilarityBatchBody.query := "kitten";
              SimilarityBatchBody.candidates := ["cat"; "dog"];
              SimilarityBatchBody.top_k := Pydantic.Absent |}
           {| SimilarityBatchRequest.query := "kitten";
              SimilarityBatchRequest.candidates := ["cat"; "dog"];
              SimilarityBatchRequest.top_k := Some 10%Z |}
           [1%R; 0%R] [[1%R; 0%R]; [0%R; 1%R]]).
  - exact argsort_short_spec.
  - exact argsort_anti_spec.
  - reflexivity.
  - repeat split; try discriminate. repeat constructor.
  - rewrite axis_cosines. repeat constructor; simpl; intuition lra.
Defined.

(** X7: a request that leaves [top_k] out gets [min(10, len(candidates))]
    results, and a request whose [top_k] is not [null] never gets more than
    100. *)
Theorem results_capped_by_top_k
        (model : SentenceTransformer) (argsort : list R -> list nat)
        (body : SimilarityBatchBody.t) (request : SimilarityBatchRequest.t) :
  Numpy.argsort_spec argsort ->
  SimilarityBatchRequest.parse body = Some request ->
  embeds_all model (SimilarityBatchRequest.query request
                    :: SimilarityBatchRequest.candidates request) ->
  exists results,
    post_similarity_batch model argsort body
    = HTTP200 {| SimilarityBatchResponse.query :=
                   SimilarityBatchRequest.query request;
                 SimilarityBatchResponse.results := results |} /\
    (SimilarityBatchBody.top_k body = Pydantic.Absent ->
     length results
     = Nat.min 10 (length (SimilarityBatchBody.candidates body))) /\
    (SimilarityBatchBody.top_k body <> Pydantic.Null ->
     length results <= 100).
Proof.
  intros Hspec Hparse Hall.
  destruct (@find_similar_returns model argsort request Hspec
              (parse_candidates_nonempty _ Hparse) Hall)
    as (sims & Hlen & Hret).
  eexists. split; [unfold post_similarity_batch; rewrite Hparse; exact Hret|].
  unfold ranking. rewrite length_map.
  rewrite (@ranked_indices_length argsort Hspec sims _
             (parse_top_k_positive _ Hparse)), Hlen.
  destruct (parse_Some _ Hparse) as (_ & Hc & _ & Htop). rewrite Hc.
  split.
  - intros E. rewrite E in Htop. rewrite Htop. reflexivity.
  - intros E. destruct (SimilarityBatchBody.top_k body) as [| |z].
    + rewrite Htop. unfold limit. lia.
    + contradiction.
    + destruct Htop as [-> Hz]. unfold limit. lia.
Qed.

Lemma results_capped_by_top_k_witness :
  exists results,
    post_similarity_batch unit_model argsort_short
      {| SimilarityBatchBody.query := "kitten";
         SimilarityBatchBody.candidates := repeat "cat" 12;
         SimilarityBatchBody.top_k := Pydantic.Absent |}
    = HTTP200 {| SimilarityBatchResponse.query := "kitten";
                 SimilarityBatchResponse.results := results |} /\
    (@Pydantic.Absent Z = Pydantic.Absent -> length results = 10) /\
    (@Pydantic.Absent Z <> Pydantic.Null -> length results <= 100).
Proof.
  apply (@results_capped_by_top_k unit_model argsort_short
           {| SimilarityBatchBody.query := "kitten";
              SimilarityBatchBody.candidates := repeat "cat" 12;
              SimilarityBatchBody.top_k := Pydantic.Absent |}
           {| SimilarityBatchRequest.query := "kitten";
              SimilarityBatchRequest.candidates := repeat "cat" 12;
              SimilarityBatchRequest.top_k := Some 10%Z |}).
  - exact argsort_short_spec.
  - reflexivity.
  - apply unit_model_embeds_all.
Defined.

(** ** Validation and errors on every route *)

(** X8: each route answers 422 exactly when its body breaks a bound of the
    request model, whatever the model would have returned; a body within
    the bounds is answered by the handler, with 200 or 500. *)
Theorem routes_reject_exactly_invalid_bodies
        (MODEL_NAME : string) (model : SentenceTransformer)
        (argsort : list R -> list nat) :
  (forall body,
      post_embed MODEL_NAME model body = HTTP422 <->
      ~ text_in_bounds (EmbedRequest.text body)) /\
  (forall body,
      post_embed_batch MODEL_NAME model body = HTTP422 <->
      ~ (1 <= Z.of_nat (length (EmbedBatchRequest.texts body)) <= 100)%Z) /\
  (forall body,
      post_similarity model body = HTTP422 <->
      ~ (text_in_bounds (SimilarityRequest.text1 body) /\
         text_in_bounds (SimilarityRequest.text2 body))) /\
  (forall body,
      post_similarity_batch model argsort body = HTTP422 <->
      ~ (text_in_bounds (SimilarityBatchBody.query body) /\
         (1 <= Z.of_nat (length (SimilarityBatchBody.candidates body))
          <= 1000)%Z /\
         top_k_in_bounds (SimilarityBatchBody.top_k body))).
Proof.
  unfold text_in_bounds. repeat split.
  - unfold post_embed, EmbedRequest.valid.
    destruct (Pydantic.str_length_ok _ _ _) eqn:E.
    + intros H; exfalso; revert H; apply try_except_not_422.
    + intros _ H. apply str_length_ok_iff in H. congruence.
  - unfold post_embed, EmbedRequest.valid.
    destruct (Pydantic.str_length_ok _ _ _) eqn:E; [|reflexivity].
    intros H; exfalso; apply H, str_length_ok_iff, E.
  - unfold post_embed_batch, EmbedBatchRequest.valid.
    destruct (Pydantic.items_ok _ _ _) eqn:E.
    + intros H; exfalso; revert H; apply try_except_not_422.
    + intros _ H. apply items_ok_iff in H. congruence.
  - unfold post_embed_batch, EmbedBatchRequest.valid.
    destruct (Pydantic.items_ok _ _ _) eqn:E; [|reflexivity].
    intros H; exfalso; apply H, items_ok_iff, E.
  - unfold post_similarity, SimilarityRequest.valid.
    destruct (_ && _) eqn:E.
    + intros H; exfalso; revert H; apply try_except_not_422.
    + intros _ [H1 H2]. apply str_length_ok_iff in H1, H2.
      rewrite H1, H2 in E; discriminate.
  - unfold post_similarity, SimilarityRequest.valid.
    destruct (_ && _) eqn:E; [|reflexivity].
    apply andb_prop in E as [E1 E2].
    intros H; exfalso; apply H; split; apply str_length_ok_iff; assumption.
  - unfold post_similarity_batch.
    destruct (SimilarityBatchRequest.parse body) as [request|] eqn:E.
    + intros H; exfalso; revert H; apply try_except_not_422.
    + intros _ (Hq & Hn & Hk). revert E.
      unfold SimilarityBatchRequest.parse.
      rewrite (proj2 (str_length_ok_iff _ _ _) Hq),
        (proj2 (items_ok_iff _ _ _) Hn); cbn [andb].
      unfold SimilarityBatchRequest.parse_top_k, Pydantic.int_range_ok.
      destruct (SimilarityBatchBody.top_k body) as [| |z]; try discriminate.
      simpl in Hk.
      replace ((1 <=? z)%Z && (z <=? 100)%Z) with true by lia. discriminate.
  - unfold post_similarity_batch.
    destruct (SimilarityBatchRequest.parse body) as [request|] eqn:E;
      [|reflexivity].
    intros H; exfalso; apply H.
    pose proof (parse_query_in_bounds _ E) as Hq.
    destruct (parse_Some _ E) as (Hq' & _ & Hn & Hk).
    rewrite Hq' in Hq. apply str_length_ok_iff in Hq.
    repeat split; try lia.
    destruct (SimilarityBatchBody.top_k body); simpl; auto; tauto.
Qed.

Lemma mapM_Raise (A B : Type) (f : A -> result B) (l : list A) (a : A)
      (msg : string) :
  In a l -> f a = Raise msg -> exists msg', mapM f l = Raise msg'.
Proof.
  induction l as [|x l IH]; intros Hin Hf; [contradiction|]. simpl.
  destruct (f x) as [b|m] eqn:Ex; simpl; [|eexists; reflexivity].
  destruct Hin as [->|Hin]; [congruence|].
  destruct (IH Hin Hf) as [m' ->]. eexists; reflexivity.
Qed.

(** X9: no partial results.  When the model raises on one text of a valid
    batch, [/embed/batch] answers 500 and no vector; when it raises on the
    query or on one candidate of a valid ranking request,
    [/similarity/batch] answers 500, and for the query, which is encoded
    first, the detail is the model's message. *)
Theorem model_error_fails_whole_request
        (MODEL_NAME : string) (model : SentenceTransformer)
        (argsort : list R -> list nat) (t : string) (msg : string) :
  encode model t = Raise msg ->
  (forall body,
      EmbedBatchRequest.valid body = true ->
      In t (EmbedBatchRequest.texts body) ->
      exists detail,
        post_embed_batch MODEL_NAME model body = HTTP500 detail) /\
  (forall body request,
      SimilarityBatchRequest.parse body = Some request ->
      In t (SimilarityBatchRequest.candidates request) ->
      exists detail,
        post_similarity_batch model argsort body = HTTP500 detail) /\
  (forall body request,
      SimilarityBatchRequest.parse body = Some request ->
      SimilarityBatchRequest.query request = t ->
      post_similarity_batch model argsort body = HTTP500 msg).
Proof.
  unfold encode. intros Ht. repeat split.
  - intros body Hvalid Hin.
    destruct (mapM_Raise (forward model) _ _ Hin Ht) as [m Hm].
    exists m. unfold post_embed_batch, embed_batch, encode_batch.
    rewrite Hvalid, Hm. reflexivity.
  - intros body request Hparse Hin.
    destruct (mapM_Raise (forward model) _ _ Hin Ht) as [m Hm].
    unfold post_similarity_batch, find_similar, encode_batch.
    rewrite Hparse. cbn [mapM].
    destruct (forward model (SimilarityBatchRequest.query request));
      [|eexists; reflexivity].
    cbn [bind getitem nth_error]. rewrite Hm. eexists; reflexivity.
  - intros body request Hparse Hq.
    unfold post_similarity_batch, find_similar, encode_batch.
    rewrite Hparse. cbn [mapM]. rewrite Hq, Ht. reflexivity.
Qed.

Lemma model_error_fails_whole_request_witness :
  (forall body,
      EmbedBatchRequest.valid body = true ->
      In "cat" (EmbedBatchRequest.texts body) ->
      exists detail,
        post_embed_batch "all-MiniLM-L6-v2" broken_model body
        = HTTP500 detail) /\
  (forall body request,
      SimilarityBatchRequest.parse body = Some request ->
      In "cat" (SimilarityBatchRequest.candidates request) ->
      exists detail,
        post_similarity_batch broken_model argsort_short body
        = HTTP500 detail) /\
  (forall body request,
      SimilarityBatchRequest.parse body = Some request ->
      SimilarityBatchRequest.query request = "cat" ->
      post_similarity_batch broken_model argsort_short body
      = HTTP500 "model error").
Proof.
  apply (@model_error_fails_whole_request "all-MiniLM-L6-v2" broken_model
           argsort_short "cat" "model error").
  reflexivity.
Defined.

(** X10: on a model whose embeddings all have the reported dimension, a 200
    answer of [/embed/batch] has between 1 and 100 vectors, each of that
    dimension, and its [dimensions] field is that dimension, the one
    [/health] reports. *)
Theorem post_embed_batch_dimensions
        (MODEL_NAME : string) (model : SentenceTransformer)
        (body : EmbedBatchRequest.t) (r : EmbedBatchResponse.t) :
  fixed_dimension model ->
  post_embed_batch MODEL_NAME model body = HTTP200 r ->
  (1 <= Z.of_nat (EmbedBatchResponse.count r) <= 100)%Z /\
  Forall (fun v => length v = get_sentence_embedding_dimension model)
         (EmbedBatchResponse.vectors r) /\
  EmbedBatchResponse.dimensions r = get_sentence_embedding_dimension model /\
  health_check MODEL_NAME model
  = HTTP200 {| HealthResponse.status := "ok";
               HealthResponse.model := EmbedBatchResponse.model r;
               HealthResponse.model_dimensions :=
                 EmbedBatchResponse.dimensions r |}.
Proof.
  intros Hdim. unfold post_embed_batch, EmbedBatchRequest.valid.
  destruct (Pydantic.items_ok _ _ _) eqn:Hn; [|discriminate].
  apply items_ok_iff in Hn.
  unfold embed_batch, encode_batch.
  destruct (mapM _ _) as [vs|m] eqn:E; [|discriminate].
  cbn [bind try_except]. intros [= <-]; simpl.
  pose proof (mapM_length _ _ E) as Hlen.
  assert (Forall (fun v => length v = get_sentence_embedding_dimension model)
                 vs) as Hall.
  { apply mapM_Forall2 in E. clear Hlen Hn.
    induction E as [|t v l vs' Htv _ IH]; constructor; eauto. }
  assert (match vs with v0 :: _ => length v0 | [] => 0 end
          = get_sentence_embedding_dimension model) as Hd.
  { destruct vs as [|v0 vs']; [simpl in Hlen; lia|].
    apply Forall_inv in Hall. exact Hall. }
  repeat split; try lia; auto.
  unfold health_check. rewrite Hd. reflexivity.
Qed.

Lemma post_embed_batch_dimensions_witness :
  exists r,
    post_embed_batch "all-MiniLM-L6-v2" unit_model
                     {| EmbedBatchRequest.texts := ["cat"; "dog"] |}
    = HTTP200 r /\
    (1 <= Z.of_nat (EmbedBatchResponse.count r) <= 100)%Z /\
    Forall (fun v => length v = 1) (EmbedBatchResponse.vectors r) /\
    EmbedBatchResponse.dimensions r = 1 /\
    health_check "all-MiniLM-L6-v2" unit_model
    = HTTP200 {| HealthResponse.status := "ok";
                 HealthResponse.model := EmbedBatchResponse.model r;
                 HealthResponse.model_dimensions :=
                   EmbedBatchResponse.dimensions r |}.
Proof.
  assert (post_embed_batch "all-MiniLM-L6-v2" unit_model
                           {| EmbedBatchRequest.texts := ["cat"; "dog"] |}
          = HTTP200 {| EmbedBatchResponse.vectors := [[1%R]; [1%R]];
                       EmbedBatchResponse.count := 2;
                       EmbedBatchResponse.dimensions := 1;
                       EmbedBatchResponse.model := "all-MiniLM-L6-v2" |})
    as E by reflexivity.
  eexists; split; [exact E|].
  exact (@post_embed_batch_dimensions _ _ _ _ unit_model_fixed_dimension E).
Defined.
